(** * DiagnoWise symptom checker: normalisation and disease matching

    A shallow embedding of [SymptomAgent/tools.py], of the command-line
    session [SymptomAgent/crew.py:main] and of the population of the graph
    [SymptomAgent/populate.py], with the properties of the symptom
    normaliser, of the disease matcher, of the session and of the
    population proved over it.

    Modelling conventions.
    - A Python [str] is a [string] whose characters are the code points
      below 256 (Latin-1); [str.lower] and [str.strip] are written out for
      that range.
    - A Python [float] that is compared with a threshold is a rational
      number [Q].  The literals [80] and [-1] are exact; every float at
      most 0.85 is at most the double nearest to 0.85 and conversely, so
      the comparison [score > 0.85] is the comparison with [85/100].
    - A function that can raise returns a [result]; a function that prints
      returns its output next to its value ([io]).
    - The mutable module state (the Neo4j driver) is the [store] passed to
      the functions that open a session on it.
    - The external collaborators (the rapidfuzz scorer, the ClinicalBERT
      encoder, the CrewAI agent and crew) are the variables of a section. *)

From Stdlib Require Import ZArith QArith List String Ascii Bool Lia Lqa.
From stdpp Require Import base option list sorting gmap strings pretty.

Local Open Scope string_scope.
Local Open Scope list_scope.

(** ** Python strings *)

Module PyStr.

(** [str.lower] on one code point below 256: the capital letters [A-Z]
    and the capital Latin-1 letters (all of [C0-DE] but the
    multiplication sign [D7]) move up by 32. *)
Definition lower_char (c : ascii) : ascii :=
  let n := N_of_ascii c in
  if ((65 <=? n) && (n <=? 90) ||
      (192 <=? n) && (n <=? 222) && negb (n =? 215))%N
  then ascii_of_N (n + 32) else c.

Fixpoint lower (s : string) : string :=
  match s with
  | EmptyString => EmptyString
  | String c r => String (lower_char c) (lower r)
  end.

(** [str.isspace] on one code point below 256. *)
Definition isspace (c : ascii) : bool :=
  let n := N_of_ascii c in
  ((9 <=? n) && (n <=? 13) || (28 <=? n) && (n <=? 32) ||
   (n =? 133) || (n =? 160))%N.

Fixpoint lstrip (s : string) : string :=
  match s with
  | EmptyString => EmptyString
  | String c r => if isspace c then lstrip r else s
  end.

Fixpoint rstrip (s : string) : string :=
  match s with
  | EmptyString => EmptyString
  | String c r =>
      match rstrip r with
      | EmptyString => if isspace c then EmptyString else String c EmptyString
      | r' => String c r'
      end
  end.

Definition strip (s : string) : string := rstrip (lstrip s).

(** Truth value of a string: the empty string is false. *)
Definition truthy (s : string) : bool :=
  match s with EmptyString => false | _ => true end.

(** [sep.join(l)] *)
Fixpoint join (sep : string) (l : list string) : string :=
  match l with
  | [] => ""
  | [x] => x
  | x :: r => x ++ sep ++ join sep r
  end.

(** [s.split(',')], for a separator of one character: the fields between
    the separators, empty ones included. *)
Fixpoint split_on (sep : ascii) (s : string) : list string :=
  match s with
  | EmptyString => [""]
  | String c r =>
      if Ascii.eqb c sep then "" :: split_on sep r
      else match split_on sep r with
           | [] => [String c ""]
           | f :: fs => String c f :: fs
           end
  end.

End PyStr.

(** ** Exceptions and results *)

(** The exceptions the modelled code meets.  [Neo4jError] stands for the
    exceptions of the Neo4j driver ([ServiceUnavailable], [SessionExpired],
    [ClientError] and the like).  [KeyboardInterrupt] is a [BaseException]
    that is not an [Exception]; all the others are caught by
    [except Exception]. *)
Inductive exception : Type :=
  | TypeError (msg : string)
  | Neo4jError (msg : string)
  | RuntimeError (msg : string)
  | EOFError
  | KeyboardInterrupt.

(** [str(e)], as the f-strings of the error messages print it.
    [EOFError] is the one that [input()] raises at the end of its input,
    with the message of CPython. *)
Definition str_of_exception (e : exception) : string :=
  match e with
  | TypeError m | Neo4jError m | RuntimeError m => m
  | EOFError => "EOF when reading a line"
  | KeyboardInterrupt => ""
  end.

Definition is_Exception (e : exception) : bool :=
  match e with KeyboardInterrupt => false | _ => true end.

Inductive result (A : Type) : Type :=
  | Ok (a : A)
  | Raise (e : exception).
Arguments Ok {A} a.
Arguments Raise {A} e.

#[global] Instance result_ret : MRet result := fun A a => Ok a.
#[global] Instance result_bind : MBind result := fun A B k m =>
  match m with
  | Ok a => k a
  | Raise e => Raise e
  end.

(** ** The symptom normaliser *)

(** [SYMPTOM_MAP]: the rule-based corrections of known typos and
    abbreviations. *)
Definition SYMPTOM_MAP : gmap string string :=
  list_to_map
    [ ("fvr", "fever");
      ("htn", "hypertension");
      ("vommiting", "vomiting");
      ("abd pain", "abdominal pain");
      ("c/o cp", "chest pain");
      ("sorethroat", "sore throat");
      ("haedache", "headache");
      ("sob", "shortness of breath");
      ("loosemotions", "diarrhea") ].

(** The lookup key of a raw symptom: [symptom.lower().strip()]. *)
Definition key_of (symptom : string) : string :=
  PyStr.strip (PyStr.lower symptom).

(** [a > b] on floats. *)
Definition Qgtb (a b : Q) : bool := negb (Qle_bool a b).

Section Normalizer.

(** The scorer of [rapidfuzz.process.extractOne] (its default, [WRatio],
    after the default processor): the score of a choice for a query. *)
Variable scorer : string -> string -> Q.

(** The ClinicalBERT encoder: the tokenizer and the model applied to a
    text, giving the [CLS] vector, or raising. *)
Variable tensor : Type.
Variable get_clinicalbert_embedding : string -> result tensor.

(** [torch.nn.functional.cosine_similarity(u, v).item()] *)
Variable cosine_similarity : tensor -> tensor -> Q.

(** [process.extractOne(query, choices)] of rapidfuzz: the choices are
    scanned in order with a running cutoff that starts at 0; a choice
    replaces the best one so far when its score reaches the cutoff and
    is strictly greater than the best score; the scan stops at the
    optimal score 100.  The result is the triple (choice, score, index)
    or [None]. *)
Fixpoint extractOne_scan (query : string) (choices : list string)
    (key : nat) (score_cutoff : Q) (best : option (string * Q * nat))
    : option (string * Q * nat) :=
  match choices with
  | [] => best
  | choice :: rest =>
      let score := scorer query choice in
      let improves :=
        Qle_bool score_cutoff score &&
        match best with
        | None => true
        | Some (_, b, _) => Qgtb score b
        end in
      let best' := if improves then Some (choice, score, key) else best in
      let cutoff' := if improves then score else score_cutoff in
      if Qeq_bool score 100 then best'
      else extractOne_scan query rest (S key) cutoff' best'
  end.

Definition extractOne (query : string) (choices : list string)
    : option (string * Q * nat) :=
  extractOne_scan query choices 0%nat 0%Q None.

(** [fuzzy_match(symptom, all_symptoms, threshold=80)]: unpacking the
    result of [extractOne] raises [TypeError] when it is [None]. *)
Definition fuzzy_match (symptom : string) (all_symptoms : list string)
    : result (option string) :=
  match extractOne symptom all_symptoms with
  | None => Raise (TypeError "cannot unpack non-iterable NoneType object")
  | Some (match_, score, _) =>
      Ok (if Qgtb score 80 then Some match_ else None)
  end.

(** The loop of [get_closest_symptom_with_bert], from the state
    [(best_match, max_sim)]. *)
Fixpoint closest_loop (user_vec : tensor) (all_symptoms : list string)
    (best_match : option string) (max_sim : Q)
    : result (option string * Q) :=
  match all_symptoms with
  | [] => Ok (best_match, max_sim)
  | s :: rest =>
      s_vec ← get_clinicalbert_embedding (PyStr.lower s);
       let sim := cosine_similarity user_vec s_vec in
       if Qgtb sim max_sim
       then closest_loop user_vec rest (Some s) sim
       else closest_loop user_vec rest best_match max_sim
  end.

Definition get_closest_symptom_with_bert (symptom : string)
    (all_symptoms : list string) : result (option string * Q) :=
  user_vec ← get_clinicalbert_embedding (PyStr.lower symptom);
  closest_loop user_vec all_symptoms None (-1).

(** Truth value of [None] or a string, as [if fuzzy:] tests it. *)
Definition truth_of (o : option string) : bool :=
  match o with
  | Some f => PyStr.truthy f
  | None => false
  end.

(** [normalize_symptom(symptom, all_symptoms)] *)
Definition normalize_symptom (symptom : string)
    (all_symptoms : list string) : result (option string) :=
  let s := PyStr.strip (PyStr.lower symptom) in
  (* Layer 1: rule-based *)
  match SYMPTOM_MAP !! s with
  | Some canonical => Ok (Some canonical)
  | None =>
      (* Layer 2: exact match *)
      if bool_decide (s ∈ PyStr.lower <$> all_symptoms) then Ok (Some s)
      else
        (* Layer 3: fuzzy string match *)
        fuzzy ← fuzzy_match s all_symptoms;
         if truth_of fuzzy then Ok fuzzy
         else
           (* Layer 4: ClinicalBERT semantic match *)
           '(semantic, score) ← get_closest_symptom_with_bert s all_symptoms;
           Ok (if Qgtb score (85 # 100) then semantic else None)
  end.

(** A raw symptom gets past the alias table, the exact match and the
    fuzzy match, and so comes to the semantic layer. *)
Definition reaches_layer4 (symptom : string) (all_symptoms : list string)
    : Prop :=
  (SYMPTOM_MAP !! key_of symptom = None) /\
  (key_of symptom ∉ PyStr.lower <$> all_symptoms) /\
  (exists f, fuzzy_match (key_of symptom) all_symptoms = Ok f /\
             truth_of f = false).

End Normalizer.

(** ** Output and the [io] monad *)

(** What a run shows to its user and does to the driver. *)
Inductive event : Type :=
  | Print (line : string)
  | Prompt (text : string)
  | CloseDriver.

(** A computation that prints and may raise: what it has printed up to
    its end or up to the exception, and its value. *)
Record io (A : Type) : Type := IO { output : list event; value : result A }.
Arguments IO {A} output value.
Arguments output {A} i.
Arguments value {A} i.

#[global] Instance io_ret : MRet io := fun A a => IO [] (Ok a).
#[global] Instance io_bind : MBind io := fun A B k m =>
  match value m with
  | Ok a => IO (output m ++ output (k a)) (value (k a))
  | Raise e => IO (output m) (Raise e)
  end.

Definition print (line : string) : io unit := IO [Print line] (Ok tt).

Definition lift {A} (r : result A) : io A := IO [] r.

(** [try: body except Exception as e: handler(e)] *)
Definition try_except {A} (body : io A) (handler : exception -> io A) : io A :=
  match value body with
  | Ok a => body
  | Raise e =>
      if is_Exception e
      then IO (output body ++ output (handler e)) (value (handler e))
      else body
  end.

(** ** The graph store *)

(** A node of the knowledge graph with its [name] property. *)
Record node : Type := Node { node_id : nat; name : string }.

(** The part of the graph the queries read: the [Symptom] nodes and the
    [HAS_SYMPTOM] relationships, from a [Disease] node to a [Symptom]
    node, both in the order the store traverses them. *)
Record graph : Type :=
  Graph { symptom_nodes : list node; has_symptom : list (node * node) }.

(** The module-level driver: it reaches the graph, or the store is out of
    reach and every query on its sessions raises the driver's error, with
    the message [reason]. *)
Inductive store : Type :=
  | Online (g : graph)
  | Offline (reason : string).

(** One record of the disease query. *)
Record match_record : Type :=
  MatchRecord { disease : string;
                matched_symptoms : list string;
                match_count : Z }.

Module Cypher.

(** [toLower()], which agrees with [str.lower] below 256. *)
Definition toLower : string -> string := PyStr.lower.

(** [MATCH (d:Disease)-[:HAS_SYMPTOM]->(s:Symptom)
     WHERE toLower(s.name) IN $symptom_list] *)
Definition match_where (g : graph) (symptom_list : list string)
    : list (node * node) :=
  filter (fun ds => toLower (name ds.2) ∈ symptom_list) (has_symptom g).

(** The grouping keys of [WITH d, ...]: the disease nodes of the rows,
    each once, in the order of their first row. *)
Fixpoint grouping_keys (ds : list node) : list node :=
  match ds with
  | [] => []
  | d :: rest =>
      d :: filter (fun d' => node_id d' ≠ node_id d) (grouping_keys rest)
  end.

(** The rows of one group. *)
Definition group_of (d : node) (rows : list (node * node)) : list node :=
  (filter (fun ds => node_id ds.1 = node_id d) rows).*2.

(** [WITH d, collect(s.name) as matched_symptoms, count( * ) as match_count]
    followed by the projection [RETURN d.name as disease,
    matched_symptoms, match_count]. *)
Definition with_aggregates (rows : list (node * node)) : list match_record :=
  (fun d =>
     let group := group_of d rows in
     MatchRecord (name d) (name <$> group) (Z.of_nat (length group)))
    <$> grouping_keys rows.*1.

(** The order of [ORDER BY match_count DESC]: the greater count first. *)
Definition count_desc (a b : match_record) : Prop :=
  (match_count b <= match_count a)%Z.

#[global] Instance count_desc_dec a b : Decision (count_desc a b).
Proof. unfold count_desc. apply _. Defined.

Definition order_by_match_count_desc : list match_record -> list match_record :=
  merge_sort count_desc.

(** [LIMIT $top_n]: a negative limit is refused by the store. *)
Definition limit {A} (top_n : Z) (rows : list A) : result (list A) :=
  if (top_n <? 0)%Z
  then Raise (Neo4jError "Invalid input for LIMIT. Must be a non-negative integer.")
  else Ok (take (Z.to_nat top_n) rows).

(** The disease query of [get_diseases_from_neo4j]. *)
Definition disease_query (g : graph) (symptom_list : list string)
    (top_n : Z) : result (list match_record) :=
  limit top_n
    (order_by_match_count_desc
       (with_aggregates (match_where g symptom_list))).

Definition name_asc (a b : string) : Prop := String.leb a b = true.

#[global] Instance name_asc_dec a b : Decision (name_asc a b).
Proof. unfold name_asc. apply _. Defined.

(** [MATCH (s:Symptom) RETURN s.name as symptom ORDER BY s.name] *)
Definition symptom_query (g : graph) : list string :=
  merge_sort name_asc (name <$> symptom_nodes g).

End Cypher.

(** [session.run(query, ...)] consumed by the list comprehension, on a
    session of the driver. *)
Definition run_disease_query (st : store) (symptom_list : list string)
    (top_n : Z) : result (list match_record) :=
  match st with
  | Online g => Cypher.disease_query g symptom_list top_n
  | Offline reason => Raise (Neo4jError reason)
  end.

Definition run_symptom_query (st : store) : result (list string) :=
  match st with
  | Online g => Ok (Cypher.symptom_query g)
  | Offline reason => Raise (Neo4jError reason)
  end.

(** The dictionary built from one record: the keys ["disease"],
    ["matched_symptoms"] and ["match_count"] with the record's fields. *)
Definition to_dict (record : match_record) : match_record :=
  {| disease := disease record;
     matched_symptoms := matched_symptoms record;
     match_count := match_count record |}.

(** [get_diseases_from_neo4j(user_symptoms, top_n=5)] *)
Definition get_diseases_from_neo4j (st : store) (user_symptoms : list string)
    (top_n : Z) : io (list match_record) :=
  try_except (A := list match_record)
    (result ← lift (run_disease_query st
                      ((fun s => PyStr.strip (PyStr.lower s)) <$> user_symptoms)
                      top_n);
     mret (to_dict <$> (result : list match_record)))
    (fun e =>
       _ ← print ("Error querying Neo4j: " ++ str_of_exception e);
       mret []).

(** [get_all_symptoms_from_neo4j()] *)
Definition get_all_symptoms_from_neo4j (st : store) : io (list string) :=
  try_except
    (result ← lift (run_symptom_query st);
     mret result)
    (fun e =>
       _ ← print ("Error retrieving symptoms: " ++ str_of_exception e);
       mret []).

(** ** The command-line session *)

(** What [crew.main] reads from its environment. *)
Record environment : Type :=
  Environment { OPENAI_API_KEY : option string;
                driver : store;
                stdin : result string }.

(** [input(prompt)] *)
Definition input (env : environment) (prompt : string) : io string :=
  IO [Prompt prompt] (stdin env).

Definition newline : string := String (ascii_of_nat 10) "".

(** ["=" * n] *)
Fixpoint rule (n : nat) : string :=
  match n with
  | O => ""
  | S n' => "=" ++ rule n'
  end.

Section Session.

Variable scorer : string -> string -> Q.
Variable tensor : Type.
Variable get_clinicalbert_embedding : string -> result tensor.
Variable cosine_similarity : tensor -> tensor -> Q.

(** [create_symptom_checker_agent(openai_api_key)] *)
Variable Agent : Type.
Variable create_symptom_checker_agent : string -> result Agent.

(** [create_diagnosis_task] and the crew built on it, run by
    [crew.kickoff()], with the text of the analysis. *)
Variable kickoff : Agent -> list string -> list match_record -> result string.

(** The loop over [user_symptoms] that fills [valid_symptoms] and
    [invalid_symptoms]. *)
Fixpoint normalize_all (all_symptoms user_symptoms valid_symptoms
    invalid_symptoms : list string) : result (list string * list string) :=
  match user_symptoms with
  | [] => Ok (valid_symptoms, invalid_symptoms)
  | symptom :: rest =>
      normalized ← normalize_symptom scorer tensor get_clinicalbert_embedding
                     cosine_similarity symptom all_symptoms;
      match normalized with
      | Some n =>
          if PyStr.truthy n
          then normalize_all all_symptoms rest (valid_symptoms ++ [n])
                 invalid_symptoms
          else normalize_all all_symptoms rest valid_symptoms
                 (invalid_symptoms ++ [symptom])
      | None =>
          normalize_all all_symptoms rest valid_symptoms
            (invalid_symptoms ++ [symptom])
      end
  end.

(** The line printed for the match of rank [idx]. *)
Definition match_line (idx : nat) (d : match_record) : string :=
  pretty idx ++ ". " ++ disease d ++ " (Matched: "
    ++ PyStr.join ", " (matched_symptoms d) ++ " | Score: "
    ++ pretty (match_count d) ++ ")".

Fixpoint print_matches (idx : nat) (ds : list match_record) : io unit :=
  match ds with
  | [] => mret tt
  | d :: rest => _ ← print (match_line idx d); print_matches (S idx) rest
  end.

(** The body of the [try] statement of [main]; each [return] ends it. *)
Definition main_body (env : environment) : io unit :=
  match OPENAI_API_KEY env with
  | None => print "Error: OPENAI_API_KEY not found in environment variables."
  | Some openai_api_key =>
    if negb (PyStr.truthy openai_api_key)
    then print "Error: OPENAI_API_KEY not found in environment variables."
    else
      agent ← lift (create_symptom_checker_agent openai_api_key);
      _ ← print "Loading symptoms from knowledge graph...";
      all_symptoms ← get_all_symptoms_from_neo4j (driver env);
      match all_symptoms with
      | [] => print "Error: Could not retrieve symptoms from database."
      | _ :: _ =>
        _ ← print "============================================";
        _ ← print "Available symptoms (sample):";
        _ ← print (PyStr.join ", " (take 30 all_symptoms));
        _ ← (if (30 <? length all_symptoms)%nat then print "..." else mret tt);
        _ ← print (newline ++ "Total symptoms in database: "
                     ++ pretty (length all_symptoms));
        _ ← print "============================================";
        _ ← print "Enter symptoms separated by comma (e.g. cough, fever, headache):";
        line ← input env "Your symptoms: ";
        let user_in := PyStr.strip line in
        if negb (PyStr.truthy user_in)
        then print "No symptoms entered. Exiting."
        else
          let user_symptoms :=
            PyStr.strip <$>
              List.filter (fun s => PyStr.truthy (PyStr.strip s))
                (PyStr.split_on "," user_in) in
          '(valid_symptoms, invalid_symptoms) ←
            lift (normalize_all all_symptoms user_symptoms [] []);
          _ ← (match invalid_symptoms with
               | [] => mret tt
               | _ => print (newline
                        ++ "Warning: These symptoms were not recognized: "
                        ++ PyStr.join ", " invalid_symptoms)
               end);
          match valid_symptoms with
          | [] => print "No valid symptoms found in database. Please check your input."
          | _ :: _ =>
            _ ← print (newline ++ "Processing symptoms: "
                         ++ PyStr.join ", " valid_symptoms);
            _ ← print (newline
                         ++ "Querying knowledge graph for possible diseases..."
                         ++ newline);
            matched_diseases ← get_diseases_from_neo4j (driver env) valid_symptoms 5;
            _ ← (match matched_diseases with
                 | [] => print ("No diseases matched your symptoms in the knowledge graph."
                                  ++ newline)
                 | _ :: _ =>
                   _ ← print "Top matches from knowledge graph:";
                   _ ← print_matches 1 matched_diseases;
                   print ""
                 end);
            _ ← print "Generating AI analysis...";
            results ← lift (kickoff agent valid_symptoms matched_diseases);
            _ ← print (newline ++ rule 50);
            _ ← print "SYMPTOM CHECKER AI ANALYSIS";
            _ ← print (rule 50);
            print results
          end
      end
  end.

(** [main()]: the body under its handlers, then [close_driver()] in the
    [finally] clause.  The result is everything the session showed. *)
Definition main (env : environment) : list event :=
  let body := main_body env in
  output body
  ++ match value body with
     | Ok _ => []
     | Raise KeyboardInterrupt => [Print (newline ++ "Operation cancelled by user.")]
     | Raise e => [Print ("An error occurred: " ++ str_of_exception e)]
     end
  ++ [CloseDriver].

End Session.

(** ** Building the graph *)

(** The table that [populate.create_knowledge_graph] reads with pandas:
    the labels of the columns after the first one, ['diseases'], and the
    rows, each with the text of its first cell and its other cells by
    label. *)
Record dataframe : Type :=
  DataFrame { columns : list string; rows : list (string * (string -> Z)) }.

(** The store as the population writes it: the [Disease] nodes next to
    the part that the queries read, and the identifier of the next node. *)
Record database : Type :=
  Database { disease_nodes : list node; contents : graph; next_id : nat }.

(** The store after [MATCH (n) DETACH DELETE n]. *)
Definition empty_database : database := Database [] (Graph [] []) 0.

(** The nodes of one label with a given [name]. *)
Definition find_named (n : string) (nodes : list node) : list node :=
  filter (fun x => name x = n) nodes.

(** [MERGE (d:Disease {name: $name})] *)
Definition merge_disease (n : string) (db : database) : database :=
  match find_named n (disease_nodes db) with
  | [] => Database (disease_nodes db ++ [Node (next_id db) n]) (contents db)
            (S (next_id db))
  | _ :: _ => db
  end.

(** [MERGE (s:Symptom {name: $symptom})] *)
Definition merge_symptom (n : string) (db : database) : database :=
  match find_named n (symptom_nodes (contents db)) with
  | [] => Database (disease_nodes db)
            (Graph (symptom_nodes (contents db) ++ [Node (next_id db) n])
               (has_symptom (contents db)))
            (S (next_id db))
  | _ :: _ => db
  end.

(** Two nodes are related already. *)
Definition related (db : database) (d s : node) : Prop :=
  Exists (fun e => node_id e.1 = node_id d /\ node_id e.2 = node_id s)
    (has_symptom (contents db)).

(** [MERGE (d)-[:HAS_SYMPTOM]->(s)] for two nodes at hand. *)
Definition merge_relationship (db : database) (ds : node * node) : database :=
  if decide (related db ds.1 ds.2) then db
  else Database (disease_nodes db)
         (Graph (symptom_nodes (contents db))
            (has_symptom (contents db) ++ [ds]))
         (next_id db).

(** [MATCH (d:Disease {name: $disease}), (s:Symptom {name: $symptom})
     MERGE (d)-[:HAS_SYMPTOM]->(s)] *)
Definition merge_has_symptom (disease_name symptom_name : string)
    (db : database) : database :=
  foldl merge_relationship db
    (list_prod (find_named disease_name (disease_nodes db))
       (find_named symptom_name (symptom_nodes (contents db)))).

(** The loop over the cells of one row: the store and the counters
    [created_symptoms] and [created_relationships] after it. *)
Fixpoint populate_cells (disease_name : string) (row : string -> Z)
    (symptoms : list string) (db : database)
    (created_symptoms created_relationships : nat)
    : database * nat * nat :=
  match symptoms with
  | [] => (db, created_symptoms, created_relationships)
  | symptom :: rest =>
      if (row symptom =? 1)%Z
      then populate_cells disease_name row rest
             (merge_has_symptom disease_name symptom (merge_symptom symptom db))
             (S created_symptoms) (S created_relationships)
      else populate_cells disease_name row rest db
             created_symptoms created_relationships
  end.

(** The line printed for the row of index [idx]. *)
Definition row_line (idx total : nat) (disease_name : string)
    (created_symptoms created_relationships : nat) : string :=
  "   [" ++ pretty (S idx) ++ "/" ++ pretty total ++ "] Disease '"
    ++ disease_name ++ "': " ++ pretty created_symptoms ++ " symptoms, "
    ++ pretty created_relationships ++ " relationships created.".

(** The loop over the rows. *)
Fixpoint populate_rows (symptoms : list string) (total : nat) (idx : nat)
    (todo : list (string * (string -> Z))) (db : database) : io database :=
  match todo with
  | [] => mret db
  | row :: rest =>
      let disease_name := PyStr.strip row.1 in
      let '(db', created_symptoms, created_relationships) :=
        populate_cells disease_name row.2 symptoms
          (merge_disease disease_name db) 0 0 in
      _ ← print (row_line idx total disease_name created_symptoms
                   created_relationships);
      populate_rows symptoms total (S idx) rest db'
  end.

(** [create_knowledge_graph(csv_path)], from the table read: the output
    and the store it leaves. *)
Definition create_knowledge_graph (st : store) (df : dataframe) : io store :=
  _ ← print "[1/3] Deleting all previous nodes and relationships from the database...";
  match st with
  | Offline reason => lift (Raise (Neo4jError reason))
  | Online _ =>
      _ ← print "   --> Database cleaned.";
      _ ← print "[2/3] Populating graph from CSV...";
      db ← populate_rows (columns df) (length (rows df)) 0 (rows df)
             empty_database;
      _ ← print "[3/3] Graph build complete!";
      mret (Online (contents db))
  end.

(** The invariant of the store under population: the names and the
    identifiers tell the nodes of a label apart, the identifiers in use
    lie below the next one, and the relationships, each once, join nodes
    of the store. *)
Record consistent (db : database) : Prop :=
  Consistent {
    disease_names_NoDup : NoDup (name <$> disease_nodes db);
    symptom_names_NoDup : NoDup (name <$> symptom_nodes (contents db));
    disease_ids_NoDup : NoDup (node_id <$> disease_nodes db);
    symptom_ids_NoDup : NoDup (node_id <$> symptom_nodes (contents db));
    ids_below_next :
      forall x, x ∈ disease_nodes db ++ symptom_nodes (contents db) ->
                node_id x < next_id db;
    relationships_join_nodes :
      forall ds, ds ∈ has_symptom (contents db) ->
                 ds.1 ∈ disease_nodes db /\ ds.2 ∈ symptom_nodes (contents db);
    relationships_NoDup : NoDup (has_symptom (contents db)) }.

(** The disease named [a] has a relationship to the symptom named [b]. *)
Definition listed (g : graph) (a b : string) : Prop :=
  exists ds, ds ∈ has_symptom g /\ name ds.1 = a /\ name ds.2 = b.

(** The table asks for a relationship from the disease named [a] to the
    symptom named [b], in one of the given rows. *)
Definition wanted (symptoms : list string)
    (todo : list (string * (string -> Z))) (a b : string) : Prop :=
  exists row, row ∈ todo /\ PyStr.strip row.1 = a /\
              b ∈ symptoms /\ row.2 b = 1%Z.

(** ** Predicates of the data model *)

(** The query parameter [$symptom_list] built from the user's symptoms. *)
Definition symptom_list_of (user_symptoms : list string) : list string :=
  (fun s => PyStr.strip (PyStr.lower s)) <$> user_symptoms.

(** What the query tells apart in a relationship: the disease node and
    the lower-cased name of the symptom. *)
Definition edge_key (ds : node * node) : nat * string :=
  (node_id ds.1, Cypher.toLower (name ds.2)).

(** The invariant of the data model: a disease lists a symptom at most
    once, symptom names being compared in lower case. *)
Definition well_formed (g : graph) : Prop := NoDup (edge_key <$> has_symptom g).

(** The distinct query symptoms that the disease [d] is connected to. *)
Definition connected_query_symptoms (g : graph) (d : node)
    (symptom_list : list string) : list string :=
  filter
    (fun q => q ∈ (fun ds => Cypher.toLower (name ds.2)) <$>
                  filter (fun ds => node_id ds.1 = node_id d) (has_symptom g))
    (remove_dups symptom_list).

(** A string that does not begin with white space. *)
Definition headed (s : string) : Prop :=
  match s with
  | EmptyString => True
  | String c _ => PyStr.isspace c = false
  end.

(** The characters of a string. *)
Fixpoint chars (s : string) : list ascii :=
  match s with
  | EmptyString => []
  | String c r => c :: chars r
  end.

(** [[s.strip() for s in user_in.split(',') if s.strip()]], the symptoms
    that [crew.main] reads off the line entered. *)
Definition user_symptoms_of (user_in : string) : list string :=
  PyStr.strip <$>
    List.filter (fun s => PyStr.truthy (PyStr.strip s))
      (PyStr.split_on "," user_in).

(** What [crew.main] shows from the loading of a vocabulary that is not
    empty up to its prompt. *)
Definition welcome (all_symptoms : list string) : list event :=
  [ Print "Loading symptoms from knowledge graph...";
    Print "============================================";
    Print "Available symptoms (sample):";
    Print (PyStr.join ", " (take 30 all_symptoms)) ]
  ++ (if (30 <? length all_symptoms)%nat then [Print "..."] else [])
  ++ [ Print (newline ++ "Total symptoms in database: "
                ++ pretty (length all_symptoms));
       Print "============================================";
       Print "Enter symptoms separated by comma (e.g. cough, fever, headache):";
       Prompt "Your symptoms: " ].

(** The line that the handlers of [crew.main] print for an exception. *)
Definition handler_line (e : exception) : event :=
  match e with
  | KeyboardInterrupt => Print (newline ++ "Operation cancelled by user.")
  | _ => Print ("An error occurred: " ++ str_of_exception e)
  end.

(** The environment lets the session come to its prompt: the key is set,
    the agent is created, and the store gives a vocabulary. *)
Definition ready {Agent : Type}
    (create_symptom_checker_agent : string -> result Agent)
    (env : environment) (g : graph) : Prop :=
  (exists key, OPENAI_API_KEY env = Some key /\ PyStr.truthy key = true /\
               exists the_agent, create_symptom_checker_agent key = Ok the_agent) /\
  driver env = Online g /\
  Cypher.symptom_query g <> [].

(** A computation that leaves the driver open. *)
Definition keeps_driver {A} (m : io A) : Prop := CloseDriver ∉ output m.

(** ** Small collaborators to run the model on *)

Module Toy.

(** A scorer on the scale 0-100: equal strings score 100, strings with
    the same first character 60, all others 20. *)
Definition scorer (query choice : string) : Q :=
  if String.eqb query choice then 100
  else match query, choice with
       | String a _, String b _ => if Ascii.eqb a b then 60 else 20
       | _, _ => 20
       end.

(** An encoder that gives the length of the text. *)
Definition embedding (text : string) : result nat := Ok (String.length text).

(** An encoder that is out of service. *)
Definition broken_embedding (text : string) : result nat :=
  Raise (RuntimeError "CUDA out of memory").

Definition cosine (u v : nat) : Q := if Nat.eqb u v then 1 else 4 # 10.

(** A scorer that gives 90 to a choice that the query begins, and 10 to
    the others. *)
Definition prefix_scorer (query choice : string) : Q :=
  if String.prefix query choice then 90 else 10.

Definition flu : node := Node 1 "Flu".
Definition cold : node := Node 2 "Cold".
Definition fever : node := Node 11 "fever".
Definition cough : node := Node 12 "cough".
Definition headache : node := Node 13 "Headache".

Definition clinic : graph :=
  Graph [fever; cough; headache]
        [(cold, cough); (flu, fever); (flu, cough); (flu, headache)].

(** A table of two diseases over three symptoms, the first disease on
    two rows. *)
Definition flu_row (symptom : string) : Z :=
  if String.eqb symptom "fever" then 1
  else if String.eqb symptom "cough" then 1 else 0.

Definition cold_row (symptom : string) : Z :=
  if String.eqb symptom "cough" then 1 else 0.

Definition table : dataframe :=
  DataFrame ["fever"; "cough"; "rash"]
    [(" Flu ", flu_row); ("Cold", cold_row); ("Flu", cold_row)].

(** An agent factory and a crew that always answer. *)
Definition create_agent (openai_api_key : string) : result unit := Ok tt.

Definition analyse (the_agent : unit) (valid_symptoms : list string)
    (matched_diseases : list match_record) : result string :=
  Ok "analysis".

(** An environment with the key set and the clinic's store in reach. *)
Definition desk (line : result string) : environment :=
  Environment (Some "sk-test") (Online clinic) line.

End Toy.

(** ** Properties of the normaliser *)

Lemma Qgtb_false (a b : Q) : Qgtb a b = false <-> (a <= b)%Q.
Proof.
  unfold Qgtb. rewrite negb_false_iff. apply Qle_bool_iff.
Qed.

Lemma Qgtb_true (a b : Q) : Qgtb a b = true <-> (b < a)%Q.
Proof.
  unfold Qgtb. rewrite negb_true_iff, <- not_true_iff_false, Qle_bool_iff.
  split; [apply Qnot_le_lt | apply Qlt_not_le].
Qed.

Section NormalizerFacts.

Variable scorer : string -> string -> Q.
Variable tensor : Type.
Variable get_clinicalbert_embedding : string -> result tensor.
Variable cosine_similarity : tensor -> tensor -> Q.

Local Abbreviation normalize :=
  (normalize_symptom scorer tensor get_clinicalbert_embedding cosine_similarity).
Local Abbreviation fuzzy := (fuzzy_match scorer).
Local Abbreviation scan := (extractOne_scan scorer).
Local Abbreviation closest :=
  (closest_loop tensor get_clinicalbert_embedding cosine_similarity).
Local Abbreviation embed := get_clinicalbert_embedding.
Local Abbreviation reaches_layer4 := (reaches_layer4 scorer).


Lemma normalize_layer1 symptom all_symptoms canonical :
  SYMPTOM_MAP !! key_of symptom = Some canonical ->
  normalize symptom all_symptoms = Ok (Some canonical).
Proof.
  unfold normalize_symptom, key_of. intros ->. reflexivity.
Qed.

Lemma normalize_layer2 symptom all_symptoms :
  SYMPTOM_MAP !! key_of symptom = None ->
  key_of symptom ∈ PyStr.lower <$> all_symptoms ->
  normalize symptom all_symptoms = Ok (Some (key_of symptom)).
Proof.
  unfold normalize_symptom, key_of.
  intros -> Hin. rewrite bool_decide_eq_true_2 by exact Hin. reflexivity.
Qed.

Lemma normalize_layer3_raises symptom all_symptoms e :
  SYMPTOM_MAP !! key_of symptom = None ->
  key_of symptom ∉ PyStr.lower <$> all_symptoms ->
  fuzzy (key_of symptom) all_symptoms = Raise e ->
  normalize symptom all_symptoms = Raise e.
Proof.
  unfold normalize_symptom, key_of.
  intros -> Hnin ->.
  rewrite bool_decide_eq_false_2 by exact Hnin. reflexivity.
Qed.

Lemma normalize_layer4 symptom all_symptoms :
  reaches_layer4 symptom all_symptoms ->
  normalize symptom all_symptoms =
    (user_vec ← embed (PyStr.lower (key_of symptom));
     '(semantic, score) ← closest user_vec all_symptoms None (-1);
     Ok (if Qgtb score (85 # 100) then semantic else None)).
Proof.
  unfold reaches_layer4, normalize_symptom, get_closest_symptom_with_bert, key_of.
  intros (-> & Hnin & f & -> & Hf).
  rewrite bool_decide_eq_false_2 by exact Hnin.
  cbn. rewrite Hf.
  destruct (embed _); reflexivity.
Qed.




(** With no choice at all, [extractOne] gives [None] and the unpacking
    in [fuzzy_match] raises. *)
Lemma fuzzy_match_nil query :
  fuzzy query [] = Raise (TypeError "cannot unpack non-iterable NoneType object").
Proof. reflexivity. Qed.


(** The semantic loop raises when the encoder fails on a vocabulary
    entry. *)
Lemma closest_raises user_vec all_symptoms : forall best_match max_sim,
  (exists x e, x ∈ all_symptoms /\ embed (PyStr.lower x) = Raise e) ->
  exists t e, embed t = Raise e /\
              closest user_vec all_symptoms best_match max_sim = Raise e.
Proof.
  induction all_symptoms as [|s rest IH];
    intros best_match max_sim (x & e & Hx & He).
  - apply elem_of_nil in Hx. contradiction.
  - cbn. destruct (embed (PyStr.lower s)) as [v|e'] eqn:Hs.
    + apply elem_of_cons in Hx as [->|Hx]; [congruence|].
      cbn. destruct (Qgtb (cosine_similarity user_vec v) max_sim);
        apply IH; eauto.
    + cbn. eauto.
Qed.

(** C1 (as amended): for an input that is no alias key and whose
    lower-cased, trimmed form equals the lower-cased form of a
    vocabulary entry, [normalize_symptom] returns the lower-cased,
    trimmed input, which is the entry in lower case; the casing of the
    entry itself is not kept. *)
Theorem exact_match_returns_lowered_input symptom all_symptoms entry :
  SYMPTOM_MAP !! key_of symptom = None ->
  entry ∈ all_symptoms ->
  PyStr.lower entry = key_of symptom ->
  normalize symptom all_symptoms = Ok (Some (key_of symptom)) /\
  normalize symptom all_symptoms = Ok (Some (PyStr.lower entry)).
Proof.
  intros Hno Hin Heq.
  assert (H : normalize symptom all_symptoms = Ok (Some (key_of symptom))).
  { apply normalize_layer2; [exact Hno|].
    apply list_elem_of_fmap. exists entry. split; [symmetry; exact Heq | exact Hin]. }
  split; [exact H|]. rewrite Heq. exact H.
Qed.

(** C2: an input whose lower-cased, trimmed form is a key of
    [SYMPTOM_MAP] is normalised to the mapped value, whatever the
    vocabulary holds; so ["HTN"] gives ["hypertension"] for every
    vocabulary. *)
Theorem alias_hit_returns_canonical :
  (forall symptom all_symptoms canonical,
     SYMPTOM_MAP !! key_of symptom = Some canonical ->
     normalize symptom all_symptoms = Ok (Some canonical)) /\
  (forall all_symptoms, normalize "HTN" all_symptoms = Ok (Some "hypertension")).
Proof.
  split.
  - intros symptom all_symptoms canonical H.
    apply normalize_layer1. exact H.
  - intros all_symptoms. apply normalize_layer1.
    vm_compute. reflexivity.
Qed.


(** C6 (as amended): when the encoder fails in layer 4, on the input or
    on a vocabulary entry, [normalize_symptom] raises the encoder's
    exception: it goes to the caller, and the token is not returned as
    unresolved. *)
Theorem embedding_failure_propagates symptom all_symptoms :
  reaches_layer4 symptom all_symptoms ->
  (exists e, embed (PyStr.lower (key_of symptom)) = Raise e) \/
  (exists x e, x ∈ all_symptoms /\ embed (PyStr.lower x) = Raise e) ->
  exists t e, embed t = Raise e /\
              normalize symptom all_symptoms = Raise e /\
              normalize symptom all_symptoms <> Ok None.
Proof.
  intros Hreach Hfail. rewrite (normalize_layer4 _ _ Hreach).
  destruct (embed (PyStr.lower (key_of symptom))) as [u|e0] eqn:Hu.
  - destruct Hfail as [(e & He)|Hentry]; [discriminate|].
    destruct (closest_raises u all_symptoms None (-1) Hentry) as (t & e & Ht & Hloop).
    exists t, e. cbn. rewrite Hloop. cbn. repeat split; [exact Ht | discriminate].
  - exists (PyStr.lower (key_of symptom)), e0. cbn.
    repeat split; [exact Hu | discriminate].
Qed.

(** C7 (defect of the code): on the empty vocabulary an input that is no
    alias key ought to be normalised to [None], as the exact and the
    semantic layer would have it; instead the fuzzy layer raises
    [TypeError], for it unpacks the [None] that [extractOne] gives when
    it has no choice to return. *)
Theorem empty_vocabulary_raises symptom :
  SYMPTOM_MAP !! key_of symptom = None ->
  normalize symptom [] =
    Raise (TypeError "cannot unpack non-iterable NoneType object").
Proof.
  intros Hno. apply normalize_layer3_raises.
  - exact Hno.
  - cbn. apply not_elem_of_nil.
  - apply fuzzy_match_nil.
Qed.

End NormalizerFacts.

(** ** Properties of the disease matcher *)

Lemma to_dict_id (record : match_record) : to_dict record = record.
Proof. destruct record. reflexivity. Qed.

Lemma fmap_to_dict (records : list match_record) : to_dict <$> records = records.
Proof.
  induction records as [|r rest IH]; [reflexivity|].
  cbn. rewrite to_dict_id. f_equal. exact IH.
Qed.

#[local] Instance count_desc_total : Total Cypher.count_desc.
Proof. intros a b. unfold Cypher.count_desc. lia. Qed.

#[local] Instance count_desc_trans : Transitive Cypher.count_desc.
Proof. intros a b c. unfold Cypher.count_desc. lia. Qed.

Lemma StronglySorted_take {A} (R : relation A) (n : nat) (l : list A) :
  StronglySorted R l -> StronglySorted R (take n l).
Proof.
  intros H. rewrite <- (take_drop n l) in H.
  apply StronglySorted_app_1_l in H. exact H.
Qed.

Lemma get_diseases_offline reason user_symptoms top_n :
  get_diseases_from_neo4j (Offline reason) user_symptoms top_n
  = IO [Print ("Error querying Neo4j: " ++ reason)] (Ok []).
Proof. reflexivity. Qed.

Lemma get_diseases_negative_limit g user_symptoms top_n :
  (top_n < 0)%Z ->
  exists out, get_diseases_from_neo4j (Online g) user_symptoms top_n = IO out (Ok []).
Proof.
  intros Hneg. unfold get_diseases_from_neo4j, run_disease_query,
    Cypher.disease_query, Cypher.limit.
  apply Z.ltb_lt in Hneg. rewrite Hneg. cbn. eauto.
Qed.

Lemma get_diseases_online g user_symptoms top_n :
  (0 <= top_n)%Z ->
  get_diseases_from_neo4j (Online g) user_symptoms top_n
  = IO [] (Ok (take (Z.to_nat top_n)
                 (Cypher.order_by_match_count_desc
                    (Cypher.with_aggregates
                       (Cypher.match_where g (symptom_list_of user_symptoms)))))).
Proof.
  intros Hpos. unfold get_diseases_from_neo4j, run_disease_query,
    Cypher.disease_query, Cypher.limit, symptom_list_of.
  apply Z.ltb_ge in Hpos. rewrite Hpos. cbn.
  rewrite fmap_to_dict. reflexivity.
Qed.

(** [get_diseases_from_neo4j] always returns a list. *)
Lemma get_diseases_returns st user_symptoms top_n :
  exists out records,
    get_diseases_from_neo4j st user_symptoms top_n = IO out (Ok records).
Proof.
  destruct st as [g|reason].
  - destruct (Z.lt_ge_cases top_n 0) as [Hneg|Hpos].
    + destruct (get_diseases_negative_limit g user_symptoms top_n Hneg) as [out H].
      eauto.
    + rewrite get_diseases_online by exact Hpos. eauto.
  - rewrite get_diseases_offline. eauto.
Qed.

(** C4: for a positive [top_n], [get_diseases_from_neo4j] returns at most
    [top_n] records, and they come by match count, the greater first. *)
Theorem at_most_top_n_by_count_desc st user_symptoms top_n :
  (0 < top_n)%Z ->
  exists out records,
    get_diseases_from_neo4j st user_symptoms top_n = IO out (Ok records) /\
    (Z.of_nat (length records) <= top_n)%Z /\
    StronglySorted Cypher.count_desc records.
Proof.
  intros Hpos. destruct st as [g|reason].
  - rewrite get_diseases_online by lia.
    eexists _, _. split; [reflexivity|]. split.
    + rewrite length_take. lia.
    + apply StronglySorted_take.
      unfold Cypher.order_by_match_count_desc.
      apply StronglySorted_merge_sort; apply _.
  - rewrite get_diseases_offline.
    eexists _, _. split; [reflexivity|]. split; [cbn; lia | constructor].
Qed.

(** C5: when the store is out of reach, [get_diseases_from_neo4j] catches
    the driver's error, prints it and returns the empty list; nothing is
    raised to the caller. *)
Theorem store_failure_gives_empty_list reason user_symptoms top_n :
  run_disease_query (Offline reason) (symptom_list_of user_symptoms) top_n
    = Raise (Neo4jError reason) /\
  get_diseases_from_neo4j (Offline reason) user_symptoms top_n
    = IO [Print ("Error querying Neo4j: " ++ reason)] (Ok []).
Proof. split; reflexivity. Qed.

(** C9: with no symptom at all, [get_diseases_from_neo4j] returns the
    empty list, for every [top_n] and every store. *)
Theorem no_symptoms_no_diseases st top_n :
  value (get_diseases_from_neo4j st [] top_n) = Ok [].
Proof.
  destruct st as [g|reason].
  - destruct (Z.lt_ge_cases top_n 0) as [Hneg|Hpos].
    + destruct (get_diseases_negative_limit g [] top_n Hneg) as [out ->].
      reflexivity.
    + rewrite get_diseases_online by exact Hpos. cbn.
      unfold Cypher.match_where.
      replace (filter _ (has_symptom g)) with (@nil (node * node)).
      * cbn. rewrite take_nil. reflexivity.
      * symmetry. induction (has_symptom g) as [|ds rest IH]; [reflexivity|].
        rewrite filter_cons. destruct (decide _) as [Hin|_]; [|exact IH].
        apply elem_of_nil in Hin. contradiction.
  - reflexivity.
Qed.

Lemma grouping_keys_subseteq (ds : list node) (d : node) :
  d ∈ Cypher.grouping_keys ds -> d ∈ ds.
Proof.
  induction ds as [|d0 rest IH]; cbn; [trivial|].
  intros [->|Hin]%elem_of_cons; [left|].
  apply list_elem_of_filter in Hin as [_ Hin]. right. exact (IH Hin).
Qed.

(** Every record of the aggregation stands for a disease node of the
    matched rows, with the rows of its group. *)
Lemma with_aggregates_elem rows r :
  r ∈ Cypher.with_aggregates rows ->
  exists d, d ∈ rows.*1 /\
            r = MatchRecord (name d) (name <$> Cypher.group_of d rows)
                  (Z.of_nat (length (Cypher.group_of d rows))).
Proof.
  unfold Cypher.with_aggregates.
  intros (d & -> & Hd)%list_elem_of_fmap.
  exists d. split; [apply grouping_keys_subseteq; exact Hd | reflexivity].
Qed.

(** The records returned are records of the aggregation. *)
Lemma get_diseases_elem g user_symptoms top_n out records r :
  get_diseases_from_neo4j (Online g) user_symptoms top_n = IO out (Ok records) ->
  r ∈ records ->
  r ∈ Cypher.with_aggregates
        (Cypher.match_where g (symptom_list_of user_symptoms)).
Proof.
  intros Hrun Hr.
  destruct (Z.lt_ge_cases top_n 0) as [Hneg|Hpos].
  - destruct (get_diseases_negative_limit g user_symptoms top_n Hneg) as [out' H].
    rewrite H in Hrun. injection Hrun as _ <-.
    apply elem_of_nil in Hr. contradiction.
  - rewrite get_diseases_online in Hrun by exact Hpos.
    injection Hrun as _ <-.
    apply subseteq_take in Hr.
    unfold Cypher.order_by_match_count_desc in Hr.
    rewrite merge_sort_Permutation in Hr. exact Hr.
Qed.

(** In a well-formed graph the rows of a group have distinct lower-cased
    symptom names, and these are the query symptoms the disease is
    connected to. *)
Lemma group_size_connected g d symptom_list :
  well_formed g ->
  length (Cypher.group_of d (Cypher.match_where g symptom_list))
  = length (connected_query_symptoms g d symptom_list).
Proof.
  intros Hwf.
  set (lname := fun ds : node * node => Cypher.toLower (name ds.2)).
  set (rows := filter (fun ds : node * node => node_id ds.1 = node_id d)
                 (Cypher.match_where g symptom_list)).
  assert (Hlen : length (Cypher.group_of d (Cypher.match_where g symptom_list))
                 = length (lname <$> rows)).
  { unfold Cypher.group_of. fold rows. rewrite !length_fmap. reflexivity. }
  rewrite Hlen. apply Permutation_length, NoDup_Permutation.
  - (* the names of a group are distinct *)
    assert (Hsub : rows `sublist_of` has_symptom g).
    { unfold rows, Cypher.match_where.
      etrans; apply sublist_filter. }
    assert (Hkeys : NoDup (edge_key <$> rows)).
    { eapply sublist_NoDup; [exact Hwf|]. apply fmap_sublist. exact Hsub. }
    assert (Heq : edge_key <$> rows = pair (node_id d) <$> (lname <$> rows)).
    { rewrite <- list_fmap_compose. apply list_fmap_ext.
      intros i ds Hi. apply list_elem_of_lookup_2 in Hi.
      apply list_elem_of_filter in Hi as [Hid _].
      unfold edge_key, lname. cbn. rewrite Hid. reflexivity. }
    rewrite Heq in Hkeys. apply NoDup_fmap_1 in Hkeys. exact Hkeys.
  - apply NoDup_filter, NoDup_remove_dups.
  - intros q. unfold connected_query_symptoms, rows, Cypher.match_where.
    fold lname.
    rewrite list_elem_of_filter, elem_of_remove_dups.
    rewrite !list_elem_of_fmap.
    split.
    + intros (ds & -> & Hds).
      apply list_elem_of_filter in Hds as [Hid Hds].
      apply list_elem_of_filter in Hds as [Hq Hds].
      split; [|exact Hq].
      exists ds. split; [reflexivity|].
      apply list_elem_of_filter. split; assumption.
    + intros [(ds & -> & Hds) Hq].
      apply list_elem_of_filter in Hds as [Hid Hds].
      exists ds. split; [reflexivity|].
      apply list_elem_of_filter. split; [exact Hid|].
      apply list_elem_of_filter. split; assumption.
Qed.

(** C10: in every record that [get_diseases_from_neo4j] returns,
    [match_count] is the length of [matched_symptoms]; and on a graph in
    which a disease lists a symptom at most once, that is the number of
    distinct query symptoms the disease is connected to. *)
Theorem match_count_is_size_of_matched st user_symptoms top_n :
  exists out records,
    get_diseases_from_neo4j st user_symptoms top_n = IO out (Ok records) /\
    Forall (fun r => match_count r = Z.of_nat (length (matched_symptoms r)))
      records /\
    forall g, st = Online g -> well_formed g ->
      Forall (fun r =>
                exists d, d ∈ (has_symptom g).*1 /\
                  disease r = name d /\
                  match_count r
                  = Z.of_nat (length (connected_query_symptoms g d
                                        (symptom_list_of user_symptoms))))
        records.
Proof.
  destruct (get_diseases_returns st user_symptoms top_n) as (out & records & Hrun).
  exists out, records. split; [exact Hrun|]. split.
  - destruct st as [g|reason].
    + apply Forall_forall. intros r Hr.
      apply (get_diseases_elem _ _ _ _ _ _ Hrun) in Hr.
      apply with_aggregates_elem in Hr as (d & _ & ->).
      cbn. rewrite length_fmap. reflexivity.
    + rewrite get_diseases_offline in Hrun. injection Hrun as _ <-. constructor.
  - intros g -> Hwf. apply Forall_forall. intros r Hr.
    apply (get_diseases_elem _ _ _ _ _ _ Hrun) in Hr.
    apply with_aggregates_elem in Hr as (d & Hd & ->).
    exists d. split; [|split; [reflexivity|]].
    + apply list_elem_of_fmap in Hd as ([d' s] & -> & Hds).
      apply list_elem_of_filter in Hds as [_ Hds].
      apply list_elem_of_fmap. exists (d', s). split; [reflexivity | exact Hds].
    + cbn. f_equal. apply group_size_connected. exact Hwf.
Qed.

(** ** Properties of the session *)

Section SessionFacts.

Variable scorer : string -> string -> Q.
Variable tensor : Type.
Variable get_clinicalbert_embedding : string -> result tensor.
Variable cosine_similarity : tensor -> tensor -> Q.
Variable Agent : Type.
Variable create_symptom_checker_agent : string -> result Agent.
Variable kickoff : Agent -> list string -> list match_record -> result string.

Local Abbreviation session :=
  (main scorer tensor get_clinicalbert_embedding cosine_similarity
     Agent create_symptom_checker_agent kickoff).

Lemma get_all_symptoms_offline reason :
  get_all_symptoms_from_neo4j (Offline reason)
  = IO [Print ("Error retrieving symptoms: " ++ reason)] (Ok []).
Proof. reflexivity. Qed.

(** C8: when the fetch of the vocabulary fails, the session stops there:
    it shows the error of the store and that the symptoms could not be
    retrieved, closes the driver, and neither asks for symptoms nor
    normalises or matches anything. *)
Theorem vocabulary_failure_aborts_session env key the_agent reason :
  OPENAI_API_KEY env = Some key ->
  PyStr.truthy key = true ->
  create_symptom_checker_agent key = Ok the_agent ->
  driver env = Offline reason ->
  session env =
    [ Print "Loading symptoms from knowledge graph...";
      Print ("Error retrieving symptoms: " ++ reason);
      Print "Error: Could not retrieve symptoms from database.";
      CloseDriver ].
Proof.
  intros Hkey Htruthy Hagent Hdriver.
  unfold main, main_body.
  rewrite Hkey, Htruthy, Hagent, Hdriver. reflexivity.
Qed.

End SessionFacts.

(** ** The properties on concrete inputs *)

Lemma exact_match_returns_lowered_input_witness :
  let normalize := normalize_symptom Toy.scorer nat Toy.embedding Toy.cosine in
  normalize " FEVER " ["Cough"; "Fever"] = Ok (Some (key_of " FEVER ")) /\
  normalize " FEVER " ["Cough"; "Fever"] = Ok (Some (PyStr.lower "Fever")).
Proof.
  apply (exact_match_returns_lowered_input Toy.scorer nat Toy.embedding
           Toy.cosine " FEVER " ["Cough"; "Fever"] "Fever").
  - vm_compute. reflexivity.
  - right. left.
  - vm_compute. reflexivity.
Defined.

(** C1 as stated fails: the vocabulary holds ["Fever"], the input
    ["fever"] is no alias key and equals the entry but for case, and the
    result is the input ["fever"], not the entry ["Fever"]. *)
Lemma exact_match_loses_casing :
  let normalize := normalize_symptom Toy.scorer nat Toy.embedding Toy.cosine in
  SYMPTOM_MAP !! key_of "fever" = None /\
  "Fever" ∈ ["Fever"] /\
  PyStr.lower "Fever" = key_of "fever" /\
  normalize "fever" ["Fever"] = Ok (Some "fever") /\
  normalize "fever" ["Fever"] <> Ok (Some "Fever").
Proof.
  repeat split; try (vm_compute; reflexivity).
  - left.
  - vm_compute. discriminate.
Qed.

Lemma alias_hit_returns_canonical_witness :
  SYMPTOM_MAP !! key_of " Htn" = Some "hypertension" /\
  normalize_symptom Toy.scorer nat Toy.broken_embedding Toy.cosine " Htn" ["fever"]
  = Ok (Some "hypertension").
Proof.
  split.
  - vm_compute. reflexivity.
  - apply (proj1 (alias_hit_returns_canonical Toy.scorer nat
                    Toy.broken_embedding Toy.cosine)).
    vm_compute. reflexivity.
Defined.



Lemma embedding_failure_propagates_witness :
  exists t e,
    Toy.broken_embedding t = Raise e /\
    normalize_symptom Toy.scorer nat Toy.broken_embedding Toy.cosine "zzz" ["fever"]
    = Raise e /\
    normalize_symptom Toy.scorer nat Toy.broken_embedding Toy.cosine "zzz" ["fever"]
    <> Ok None.
Proof.
  apply (embedding_failure_propagates Toy.scorer nat Toy.broken_embedding
           Toy.cosine "zzz" ["fever"]).
  - split; [vm_compute; reflexivity|]. split.
    + intros H. repeat (apply elem_of_cons in H as [H|H]; [discriminate H|]).
      apply elem_of_nil in H. exact H.
    + exists None. split; vm_compute; reflexivity.
  - left. eexists. reflexivity.
Defined.

(** C6 as stated fails: the encoder is out of service, the input ["zzz"]
    reaches layer 4 on the vocabulary ["fever"], and [normalize_symptom]
    raises the encoder's error instead of returning [None]. *)
Lemma embedding_failure_not_absorbed :
  let normalize :=
    normalize_symptom Toy.scorer nat Toy.broken_embedding Toy.cosine in
  reaches_layer4 Toy.scorer "zzz" ["fever"] /\
  Toy.broken_embedding (PyStr.lower (key_of "zzz"))
    = Raise (RuntimeError "CUDA out of memory") /\
  normalize "zzz" ["fever"] = Raise (RuntimeError "CUDA out of memory") /\
  normalize "zzz" ["fever"] <> Ok None.
Proof.
  repeat split; try (vm_compute; reflexivity).
  - intros H. repeat (apply elem_of_cons in H as [H|H]; [discriminate H|]).
    apply elem_of_nil in H. exact H.
  - exists None. split; vm_compute; reflexivity.
  - vm_compute. discriminate.
Qed.

Lemma empty_vocabulary_raises_witness :
  normalize_symptom Toy.scorer nat Toy.embedding Toy.cosine "zzz" []
  = Raise (TypeError "cannot unpack non-iterable NoneType object").
Proof.
  apply (empty_vocabulary_raises Toy.scorer nat Toy.embedding Toy.cosine "zzz").
  vm_compute. reflexivity.
Defined.

(** The defect behind C7 on another input: ["cold sweat"] is no alias key,
    the vocabulary is empty, and [normalize_symptom] raises instead of
    returning [None]. *)
Lemma empty_vocabulary_not_None :
  let normalize := normalize_symptom Toy.scorer nat Toy.embedding Toy.cosine in
  SYMPTOM_MAP !! key_of "cold sweat" = None /\
  normalize "cold sweat" []
    = Raise (TypeError "cannot unpack non-iterable NoneType object") /\
  normalize "cold sweat" [] <> Ok None.
Proof.
  repeat split; try (vm_compute; reflexivity).
  vm_compute. discriminate.
Qed.

Lemma at_most_top_n_by_count_desc_witness :
  exists out records,
    get_diseases_from_neo4j (Online Toy.clinic) ["Fever"; " cough"] 1
      = IO out (Ok records) /\
    (Z.of_nat (length records) <= 1)%Z /\
    StronglySorted Cypher.count_desc records.
Proof.
  apply (at_most_top_n_by_count_desc (Online Toy.clinic) ["Fever"; " cough"] 1).
  lia.
Defined.

(** Scenario C of the specification: Flu has fever and cough, Cold has
    cough; the query for fever and cough gives Flu with 2 and then Cold
    with 1. *)
Example scenario_C :
  get_diseases_from_neo4j
    (Online (Graph [Toy.fever; Toy.cough]
               [(Toy.flu, Toy.fever); (Toy.cold, Toy.cough); (Toy.flu, Toy.cough)]))
    ["fever"; "cough"] 5
  = IO [] (Ok [ MatchRecord "Flu" ["fever"; "cough"] 2;
                MatchRecord "Cold" ["cough"] 1 ]).
Proof. vm_compute. reflexivity. Qed.

Lemma match_count_is_size_of_matched_witness :
  well_formed Toy.clinic /\
  exists out records,
    get_diseases_from_neo4j (Online Toy.clinic) ["Fever"; "cough"; "fever"] 5
      = IO out (Ok records) /\
    Forall (fun r => match_count r = Z.of_nat (length (matched_symptoms r)))
      records /\
    Forall (fun r =>
              exists d, d ∈ (has_symptom Toy.clinic).*1 /\
                disease r = name d /\
                match_count r
                = Z.of_nat (length (connected_query_symptoms Toy.clinic d
                                      (symptom_list_of ["Fever"; "cough"; "fever"]))))
      records.
Proof.
  assert (Hwf : well_formed Toy.clinic).
  { apply (bool_decide_unpack _). vm_compute. exact I. }
  split; [exact Hwf|].
  destruct (match_count_is_size_of_matched (Online Toy.clinic)
              ["Fever"; "cough"; "fever"] 5) as (out & records & Hrun & Hsize & Hdistinct).
  exists out, records. split; [exact Hrun|]. split; [exact Hsize|].
  apply (Hdistinct Toy.clinic eq_refl Hwf).
Defined.

Lemma vocabulary_failure_aborts_session_witness :
  main Toy.scorer nat Toy.embedding Toy.cosine unit (fun _ => Ok tt)
    (fun _ _ _ => Ok "analysis")
    (Environment (Some "sk-test") (Offline "Unable to retrieve routing information")
       (Ok "fever, cough"))
  = [ Print "Loading symptoms from knowledge graph...";
      Print "Error retrieving symptoms: Unable to retrieve routing information";
      Print "Error: Could not retrieve symptoms from database.";
      CloseDriver ].
Proof.
  apply (vocabulary_failure_aborts_session Toy.scorer nat Toy.embedding
           Toy.cosine unit (fun _ => Ok tt) (fun _ _ _ => Ok "analysis")
           (Environment (Some "sk-test")
              (Offline "Unable to retrieve routing information")
              (Ok "fever, cough"))
           "sk-test" tt "Unable to retrieve routing information");
    reflexivity.
Defined.

(** ** More on Python strings *)

Lemma lower_char_idempotent (c : ascii) :
  PyStr.lower_char (PyStr.lower_char c) = PyStr.lower_char c.
Proof. destruct c as [[] [] [] [] [] [] [] []]; reflexivity. Qed.

Lemma isspace_lower_char (c : ascii) :
  PyStr.isspace (PyStr.lower_char c) = PyStr.isspace c.
Proof. destruct c as [[] [] [] [] [] [] [] []]; reflexivity. Qed.

Lemma lower_idempotent (s : string) : PyStr.lower (PyStr.lower s) = PyStr.lower s.
Proof.
  induction s as [|c r IH]; [reflexivity|].
  cbn. rewrite lower_char_idempotent, IH. reflexivity.
Qed.

Lemma lstrip_lower (s : string) :
  PyStr.lstrip (PyStr.lower s) = PyStr.lower (PyStr.lstrip s).
Proof.
  induction s as [|c r IH]; [reflexivity|].
  cbn. rewrite isspace_lower_char.
  destruct (PyStr.isspace c); [exact IH | reflexivity].
Qed.

Lemma rstrip_lower (s : string) :
  PyStr.rstrip (PyStr.lower s) = PyStr.lower (PyStr.rstrip s).
Proof.
  induction s as [|c r IH]; [reflexivity|].
  cbn. rewrite IH, isspace_lower_char.
  destruct (PyStr.rstrip r); cbn; [destruct (PyStr.isspace c)|]; reflexivity.
Qed.

Lemma strip_lower (s : string) :
  PyStr.strip (PyStr.lower s) = PyStr.lower (PyStr.strip s).
Proof. unfold PyStr.strip. rewrite lstrip_lower, rstrip_lower. reflexivity. Qed.

Lemma lstrip_headed (s : string) : headed (PyStr.lstrip s).
Proof.
  induction s as [|c r IH]; [exact I|].
  cbn. destruct (PyStr.isspace c) eqn:Hc; [exact IH | exact Hc].
Qed.

Lemma lstrip_of_headed (s : string) : headed s -> PyStr.lstrip s = s.
Proof. destruct s as [|c r]; cbn; [reflexivity|]. intros ->. reflexivity. Qed.

Lemma rstrip_headed (s : string) : headed s -> headed (PyStr.rstrip s).
Proof.
  destruct s as [|c r]; cbn; [trivial|]. intros Hc.
  destruct (PyStr.rstrip r); [rewrite Hc|]; exact Hc.
Qed.

Lemma rstrip_idempotent (s : string) :
  PyStr.rstrip (PyStr.rstrip s) = PyStr.rstrip s.
Proof.
  induction s as [|c r IH]; [reflexivity|].
  cbn. destruct (PyStr.rstrip r) as [|c' r'] eqn:Hr.
  - destruct (PyStr.isspace c) eqn:Hc; [reflexivity|]. cbn. rewrite Hc. reflexivity.
  - change (PyStr.rstrip (String c (String c' r')))
      with (match PyStr.rstrip (String c' r') with
            | EmptyString =>
                if PyStr.isspace c then EmptyString else String c EmptyString
            | r'' => String c r''
            end).
    rewrite IH. reflexivity.
Qed.

Lemma strip_idempotent (s : string) : PyStr.strip (PyStr.strip s) = PyStr.strip s.
Proof.
  unfold PyStr.strip.
  rewrite (lstrip_of_headed (PyStr.rstrip (PyStr.lstrip s)))
    by apply rstrip_headed, lstrip_headed.
  apply rstrip_idempotent.
Qed.

Lemma key_of_idempotent (symptom : string) : key_of (key_of symptom) = key_of symptom.
Proof.
  unfold key_of.
  rewrite (strip_lower symptom), lower_idempotent, <- strip_lower.
  apply strip_idempotent.
Qed.

Lemma key_of_lower (symptom : string) : key_of (PyStr.lower symptom) = key_of symptom.
Proof. unfold key_of. rewrite lower_idempotent. reflexivity. Qed.

Lemma key_of_strip (symptom : string) : key_of (PyStr.strip symptom) = key_of symptom.
Proof.
  unfold key_of. rewrite <- strip_lower. apply strip_idempotent.
Qed.

(** ** More on the normaliser *)

Section NormalizerMore.

Variable scorer : string -> string -> Q.
Variable tensor : Type.
Variable get_clinicalbert_embedding : string -> result tensor.
Variable cosine_similarity : tensor -> tensor -> Q.

Local Abbreviation normalize :=
  (normalize_symptom scorer tensor get_clinicalbert_embedding cosine_similarity).
Local Abbreviation fuzzy := (fuzzy_match scorer).
Local Abbreviation scan := (extractOne_scan scorer).
Local Abbreviation closest :=
  (closest_loop tensor get_clinicalbert_embedding cosine_similarity).
Local Abbreviation closest_symptom :=
  (get_closest_symptom_with_bert tensor get_clinicalbert_embedding
     cosine_similarity).
Local Abbreviation embed := get_clinicalbert_embedding.

Lemma normalize_key_eq a b all_symptoms :
  key_of a = key_of b -> normalize a all_symptoms = normalize b all_symptoms.
Proof.
  unfold normalize_symptom. fold (key_of a). fold (key_of b).
  intros ->. reflexivity.
Qed.

(** The normaliser does not tell apart inputs that differ in case or in
    the white space around them. *)
Theorem normalize_ignores_case_and_margins symptom all_symptoms :
  normalize (key_of symptom) all_symptoms = normalize symptom all_symptoms /\
  normalize (PyStr.lower symptom) all_symptoms = normalize symptom all_symptoms /\
  normalize (PyStr.strip symptom) all_symptoms = normalize symptom all_symptoms.
Proof.
  repeat split; apply normalize_key_eq.
  - apply key_of_idempotent.
  - apply key_of_lower.
  - apply key_of_strip.
Qed.

(** What the scan ends on is the best choice it started from or one of
    the choices, with its own score. *)
Lemma scan_elem query choices : forall key cutoff best m b k,
  scan query choices key cutoff best = Some (m, b, k) ->
  best = Some (m, b, k) \/ (m ∈ choices /\ b = scorer query m).
Proof.
  induction choices as [|c rest IH]; intros key cutoff best m b k H.
  - left. exact H.
  - cbn in H.
    destruct (Qle_bool cutoff (scorer query c) && _);
      destruct (Qeq_bool (scorer query c) 100).
    + injection H as <- <- <-. right. split; [left | reflexivity].
    + apply IH in H as [H|[Hin Hb]].
      * injection H as <- <- <-. right. split; [left | reflexivity].
      * right. split; [right; exact Hin | exact Hb].
    + left. exact H.
    + apply IH in H as [H|[Hin Hb]]; [left; exact H|].
      right. split; [right; exact Hin | exact Hb].
Qed.

(** From a best choice on, the scan ends on a score that no choice
    exceeds. *)
Lemma scan_max query choices : forall key cutoff m b k,
  (cutoff <= b)%Q -> (b <= 100)%Q ->
  (forall x, x ∈ choices -> (scorer query x <= 100)%Q) ->
  exists m' b' k',
    scan query choices key cutoff (Some (m, b, k)) = Some (m', b', k') /\
    (b <= b')%Q /\
    (forall x, x ∈ choices -> (scorer query x <= b')%Q).
Proof.
  induction choices as [|c rest IH]; intros key cutoff m b k Hcut Hb Hall.
  - cbn. exists m, b, k. split; [reflexivity|]. split; [lra|].
    intros x Hx. apply elem_of_nil in Hx. contradiction.
  - assert (Hc : (scorer query c <= 100)%Q) by (apply Hall; left).
    assert (Hrest : forall x, x ∈ rest -> (scorer query x <= 100)%Q)
      by (intros x Hx; apply Hall; right; exact Hx).
    cbn.
    destruct (Qle_bool cutoff (scorer query c) && Qgtb (scorer query c) b)
      eqn:Himp.
    + apply andb_true_iff in Himp as [_ Hgt]. apply Qgtb_true in Hgt.
      destruct (Qeq_bool (scorer query c) 100) eqn:Hopt.
      * apply Qeq_bool_iff in Hopt.
        eexists _, _, _. split; [reflexivity|]. split; [lra|].
        intros x [->|Hx]%elem_of_cons; [lra|].
        specialize (Hrest x Hx). lra.
      * destruct (IH (S key) (scorer query c) c (scorer query c) key)
          as (m' & b' & k' & -> & Hle & Hmax); [lra | exact Hc | exact Hrest |].
        eexists _, _, _. split; [reflexivity|]. split; [lra|].
        intros x [->|Hx]%elem_of_cons; [exact Hle | exact (Hmax x Hx)].
    + assert (Hle : (scorer query c <= b)%Q).
      { apply andb_false_iff in Himp as [Hlow|Hlow].
        - apply not_true_iff_false in Hlow. rewrite Qle_bool_iff in Hlow.
          apply Qnot_le_lt in Hlow. lra.
        - apply Qgtb_false in Hlow. exact Hlow. }
      destruct (Qeq_bool (scorer query c) 100) eqn:Hopt.
      * apply Qeq_bool_iff in Hopt.
        eexists _, _, _. split; [reflexivity|]. split; [lra|].
        intros x [->|Hx]%elem_of_cons; [exact Hle|].
        specialize (Hrest x Hx). lra.
      * destruct (IH (S key) cutoff m b k)
          as (m' & b' & k' & -> & Hle' & Hmax); [exact Hcut | exact Hb | exact Hrest |].
        eexists _, _, _. split; [reflexivity|]. split; [exact Hle'|].
        intros x [->|Hx]%elem_of_cons; [lra | exact (Hmax x Hx)].
Qed.

(** On choices scored between 0 and 100, one at least, [extractOne]
    gives a choice with its score, which no choice exceeds. *)
Lemma extractOne_best query choices :
  choices <> [] ->
  (forall x, x ∈ choices -> (0 <= scorer query x <= 100)%Q) ->
  exists m b k,
    extractOne scorer query choices = Some (m, b, k) /\
    m ∈ choices /\ b = scorer query m /\
    (forall x, x ∈ choices -> (scorer query x <= b)%Q).
Proof.
  intros Hne Hall.
  assert (Hsome : exists m b k,
            extractOne scorer query choices = Some (m, b, k) /\
            (forall x, x ∈ choices -> (scorer query x <= b)%Q)).
  { destruct choices as [|c rest]; [congruence|].
    destruct (Hall c) as [H0 H100]; [left|].
    assert (Hrest : forall x, x ∈ rest -> (scorer query x <= 100)%Q)
      by (intros x Hx; apply Hall; right; exact Hx).
    unfold extractOne. cbn.
    apply Qle_bool_iff in H0. rewrite H0. cbn.
    destruct (Qeq_bool (scorer query c) 100) eqn:Hopt.
    - apply Qeq_bool_iff in Hopt.
      eexists _, _, _. split; [reflexivity|].
      intros x [->|Hx]%elem_of_cons; [lra|]. specialize (Hrest x Hx). lra.
    - destruct (scan_max query rest 1%nat (scorer query c) c (scorer query c) 0%nat)
        as (m' & b' & k' & -> & Hle & Hmax); [lra | exact H100 | exact Hrest |].
      eexists _, _, _. split; [reflexivity|].
      intros x [->|Hx]%elem_of_cons; [exact Hle | exact (Hmax x Hx)]. }
  destruct Hsome as (m & b & k & Hrun & Hmax).
  exists m, b, k. split; [exact Hrun|].
  unfold extractOne in Hrun. apply scan_elem in Hrun as [Hrun|[Hin Hb]];
    [discriminate|].
  repeat split; assumption.
Qed.

(** [fuzzy_match] on a vocabulary that is not empty, with scores on the
    scale 0-100: it finds an entry of the greatest score and returns it
    when that score is above 80, and [None] otherwise; it does not raise. *)
Theorem fuzzy_match_returns_best query all_symptoms :
  all_symptoms <> [] ->
  (forall x, x ∈ all_symptoms -> (0 <= scorer query x <= 100)%Q) ->
  exists m,
    m ∈ all_symptoms /\
    (forall x, x ∈ all_symptoms -> (scorer query x <= scorer query m)%Q) /\
    fuzzy query all_symptoms
    = Ok (if Qgtb (scorer query m) 80 then Some m else None).
Proof.
  intros Hne Hall.
  destruct (extractOne_best query all_symptoms Hne Hall)
    as (m & b & k & Hrun & Hin & -> & Hmax).
  exists m. split; [exact Hin|]. split; [exact Hmax|].
  unfold fuzzy_match. rewrite Hrun. reflexivity.
Qed.

Lemma fuzzy_match_elem query all_symptoms m :
  fuzzy query all_symptoms = Ok (Some m) ->
  m ∈ all_symptoms /\ (80 < scorer query m)%Q.
Proof.
  unfold fuzzy_match.
  destruct (extractOne scorer query all_symptoms) as [[[m' b] k]|] eqn:Hrun;
    [|discriminate].
  destruct (Qgtb b 80) eqn:Hgt; [|discriminate].
  intros H. injection H as <-.
  unfold extractOne in Hrun. apply scan_elem in Hrun as [Hrun|[Hin ->]];
    [discriminate|].
  split; [exact Hin | apply Qgtb_true; exact Hgt].
Qed.

(** The semantic loop, when it ends: its maximum is not below the one it
    started from nor below any similarity, and its best match is the one
    it started from or an entry whose similarity is the maximum. *)
Lemma closest_inv user_vec all_symptoms : forall best_match max_sim best' max',
  closest user_vec all_symptoms best_match max_sim = Ok (best', max') ->
  (max_sim <= max')%Q /\
  (forall x, x ∈ all_symptoms ->
     exists v, embed (PyStr.lower x) = Ok v /\
               (cosine_similarity user_vec v <= max')%Q) /\
  ((best' = best_match /\ max' = max_sim) \/
   (exists m v, m ∈ all_symptoms /\ best' = Some m /\
                embed (PyStr.lower m) = Ok v /\
                max' = cosine_similarity user_vec v /\
                (max_sim < max')%Q)).
Proof.
  induction all_symptoms as [|s rest IH]; intros best_match max_sim best' max' H.
  - cbn in H. injection H as <- <-. split; [lra|]. split; [|left; split; reflexivity].
    intros x Hx. apply elem_of_nil in Hx. contradiction.
  - cbn in H. destruct (embed (PyStr.lower s)) as [v|e] eqn:Hv; [|discriminate].
    cbn in H. destruct (Qgtb (cosine_similarity user_vec v) max_sim) eqn:Hgt.
    + apply Qgtb_true in Hgt.
      apply IH in H as (Hle & Hmax & Hbest).
      split; [lra|]. split.
      * intros x [->|Hx]%elem_of_cons; [exists v; split; [exact Hv | exact Hle]|].
        exact (Hmax x Hx).
      * right. destruct Hbest as [[-> ->]|(m & w & Hin & -> & Hw & -> & Hlt)].
        -- exists s, v. repeat split; [left | exact Hv | exact Hgt].
        -- exists m, w. repeat split; [right; exact Hin | exact Hw | lra].
    + apply Qgtb_false in Hgt.
      apply IH in H as (Hle & Hmax & Hbest).
      split; [exact Hle|]. split.
      * intros x [->|Hx]%elem_of_cons; [exists v; split; [exact Hv | lra]|].
        exact (Hmax x Hx).
      * destruct Hbest as [Hsame|(m & w & Hin & -> & Hw & -> & Hlt)];
          [left; exact Hsame|].
        right. exists m, w. repeat split; [right; exact Hin | exact Hw | exact Hlt].
Qed.

Lemma closest_total user_vec all_symptoms : forall best_match max_sim,
  (forall x, x ∈ all_symptoms -> exists v, embed (PyStr.lower x) = Ok v) ->
  exists best' max',
    closest user_vec all_symptoms best_match max_sim = Ok (best', max').
Proof.
  induction all_symptoms as [|s rest IH]; intros best_match max_sim Hall.
  - cbn. eauto.
  - destruct (Hall s) as [v Hv]; [left|].
    assert (Hrest : forall x, x ∈ rest -> exists v, embed (PyStr.lower x) = Ok v)
      by (intros x Hx; apply Hall; right; exact Hx).
    cbn. rewrite Hv. cbn.
    destruct (Qgtb (cosine_similarity user_vec v) max_sim); apply IH; exact Hrest.
Qed.

(** [get_closest_symptom_with_bert], when the encoder answers for the
    input and for every entry: the similarity it returns is not exceeded
    by any entry; its match is an entry with that similarity, or [None]
    with the similarity -1 when no entry is closer than -1. *)
Theorem closest_symptom_is_most_similar symptom all_symptoms user_vec :
  embed (PyStr.lower symptom) = Ok user_vec ->
  (forall x, x ∈ all_symptoms -> exists v, embed (PyStr.lower x) = Ok v) ->
  exists best_match max_sim,
    closest_symptom symptom all_symptoms = Ok (best_match, max_sim) /\
    (forall x, x ∈ all_symptoms ->
       exists v, embed (PyStr.lower x) = Ok v /\
                 (cosine_similarity user_vec v <= max_sim)%Q) /\
    ((best_match = None /\ max_sim = (-1)%Q) \/
     (exists m v, m ∈ all_symptoms /\ best_match = Some m /\
                  embed (PyStr.lower m) = Ok v /\
                  max_sim = cosine_similarity user_vec v /\
                  (-1 < max_sim)%Q)).
Proof.
  intros Hu Hall. unfold get_closest_symptom_with_bert. rewrite Hu. cbn.
  destruct (closest_total user_vec all_symptoms None (-1) Hall)
    as (best' & max' & Hrun).
  exists best', max'. split; [exact Hrun|].
  apply closest_inv in Hrun as (_ & Hmax & Hbest).
  split; [exact Hmax | exact Hbest].
Qed.

(** Whatever [normalize_symptom] returns is the value of an alias, the
    lower-cased input when an entry equals it but for case, or an entry
    of the vocabulary. *)
Theorem normalize_result_provenance symptom all_symptoms r :
  normalize symptom all_symptoms = Ok (Some r) ->
  SYMPTOM_MAP !! key_of symptom = Some r \/
  (r = key_of symptom /\ exists x, x ∈ all_symptoms /\ PyStr.lower x = r) \/
  r ∈ all_symptoms.
Proof.
  unfold normalize_symptom. fold (key_of symptom).
  destruct (SYMPTOM_MAP !! key_of symptom) as [canonical|].
  { intros H. injection H as <-. left. reflexivity. }
  destruct (bool_decide (key_of symptom ∈ PyStr.lower <$> all_symptoms)) eqn:Hex.
  { intros H. injection H as <-. right. left. split; [reflexivity|].
    apply bool_decide_eq_true_1 in Hex.
    apply list_elem_of_fmap in Hex as (x & Hx & Hin).
    exists x. split; [exact Hin | symmetry; exact Hx]. }
  destruct (fuzzy (key_of symptom) all_symptoms) as [f|e] eqn:Hf; [|discriminate].
  cbn. destruct (truth_of f).
  { intros H. injection H as ->. right. right.
    apply fuzzy_match_elem in Hf as [Hin _]. exact Hin. }
  unfold get_closest_symptom_with_bert.
  destruct (embed (PyStr.lower (key_of symptom))) as [u|e]; [|discriminate].
  cbn. destruct (closest u all_symptoms None (-1)) as [[bm ms]|e] eqn:Hrun;
    [|discriminate].
  cbn. destruct (Qgtb ms (85 # 100)); [|discriminate].
  intros H. injection H as ->. right. right.
  apply closest_inv in Hrun as (_ & _ & [[Hnone _]|(m & v & Hin & Hsome & _)]).
  - discriminate.
  - injection Hsome as ->. exact Hin.
Qed.

(** The fuzzy layer: an input with no alias hit and no exact match, on a
    vocabulary without the empty string and scored on the scale 0-100, in
    which some entry scores above 80, is normalised to an entry of the
    greatest score, whatever the encoder does. *)
Theorem normalize_fuzzy_hit symptom all_symptoms :
  SYMPTOM_MAP !! key_of symptom = None ->
  key_of symptom ∉ PyStr.lower <$> all_symptoms ->
  "" ∉ all_symptoms ->
  (forall x, x ∈ all_symptoms -> (0 <= scorer (key_of symptom) x <= 100)%Q) ->
  (exists x, x ∈ all_symptoms /\ (80 < scorer (key_of symptom) x)%Q) ->
  exists m,
    m ∈ all_symptoms /\
    (80 < scorer (key_of symptom) m)%Q /\
    (forall x, x ∈ all_symptoms ->
       (scorer (key_of symptom) x <= scorer (key_of symptom) m)%Q) /\
    normalize symptom all_symptoms = Ok (Some m).
Proof.
  intros Hno Hnin Hempty Hall (x & Hx & Hhigh).
  assert (Hne : all_symptoms <> []).
  { intros ->. apply elem_of_nil in Hx. exact Hx. }
  destruct (extractOne_best (key_of symptom) all_symptoms Hne Hall)
    as (m & b & k & Hrun & Hin & -> & Hmax).
  assert (Hbest : (80 < scorer (key_of symptom) m)%Q).
  { specialize (Hmax x Hx). lra. }
  exists m. split; [exact Hin|]. split; [exact Hbest|]. split; [exact Hmax|].
  unfold normalize_symptom. fold (key_of symptom).
  rewrite Hno, bool_decide_eq_false_2 by exact Hnin.
  unfold fuzzy_match. rewrite Hrun.
  apply Qgtb_true in Hbest. rewrite Hbest. cbn.
  destruct m as [|c m']; [contradiction|]. reflexivity.
Qed.

(** The semantic layer: an input that comes to layer 4, with the encoder
    answering for it and for every entry, and with some entry closer than
    0.85, is normalised to an entry of the greatest similarity. *)
Theorem normalize_semantic_hit symptom all_symptoms user_vec :
  reaches_layer4 scorer symptom all_symptoms ->
  embed (PyStr.lower (key_of symptom)) = Ok user_vec ->
  (forall x, x ∈ all_symptoms -> exists v, embed (PyStr.lower x) = Ok v) ->
  (exists x v, x ∈ all_symptoms /\ embed (PyStr.lower x) = Ok v /\
               (85 # 100 < cosine_similarity user_vec v)%Q) ->
  exists m w,
    m ∈ all_symptoms /\ embed (PyStr.lower m) = Ok w /\
    (85 # 100 < cosine_similarity user_vec w)%Q /\
    (forall x, x ∈ all_symptoms ->
       exists v, embed (PyStr.lower x) = Ok v /\
                 (cosine_similarity user_vec v <= cosine_similarity user_vec w)%Q) /\
    normalize symptom all_symptoms = Ok (Some m).
Proof.
  intros (Hno & Hnin & f & Hf & Htruth) Hu Hall (x & v & Hx & Hv & Hhigh).
  destruct (closest_total user_vec all_symptoms None (-1) Hall)
    as (bm & ms & Hrun).
  pose proof (closest_inv _ _ _ _ _ _ Hrun) as (_ & Hmax & Hbest).
  assert (Hms : (85 # 100 < ms)%Q).
  { destruct (Hmax x Hx) as (v' & Hv' & Hle).
    rewrite Hv in Hv'. injection Hv' as <-. lra. }
  destruct Hbest as [[_ ->]|(m & w & Hin & -> & Hw & -> & _)].
  { exfalso. revert Hms. unfold Qlt. cbn. lia. }
  exists m, w. split; [exact Hin|]. split; [exact Hw|]. split; [exact Hms|].
  split; [exact Hmax|].
  unfold normalize_symptom. fold (key_of symptom).
  rewrite Hno, bool_decide_eq_false_2 by exact Hnin.
  rewrite Hf. cbn. rewrite Htruth.
  unfold get_closest_symptom_with_bert. rewrite Hu. cbn. rewrite Hrun. cbn.
  apply Qgtb_true in Hms. rewrite Hms. reflexivity.
Qed.

End NormalizerMore.

(** ** More on the disease matcher *)

Lemma symptom_list_of_idempotent (user_symptoms : list string) :
  symptom_list_of (symptom_list_of user_symptoms) = symptom_list_of user_symptoms.
Proof.
  unfold symptom_list_of. rewrite <- list_fmap_compose.
  apply list_fmap_ext. intros i s _. apply key_of_idempotent.
Qed.

(** The query reads its symptom list as a set. *)
Lemma match_where_ext g l1 l2 :
  (forall x, x ∈ l1 <-> x ∈ l2) ->
  Cypher.match_where g l1 = Cypher.match_where g l2.
Proof.
  intros Heq. unfold Cypher.match_where.
  apply list_filter_iff. intros ds. apply Heq.
Qed.

Lemma get_diseases_ext st a b top_n :
  (forall x, x ∈ symptom_list_of a <-> x ∈ symptom_list_of b) ->
  get_diseases_from_neo4j st a top_n = get_diseases_from_neo4j st b top_n.
Proof.
  intros Heq. unfold get_diseases_from_neo4j.
  fold (symptom_list_of a). fold (symptom_list_of b).
  destruct st as [g|reason]; [|reflexivity].
  unfold run_disease_query, Cypher.disease_query.
  rewrite (match_where_ext g _ _ Heq). reflexivity.
Qed.

(** The order of the user's symptoms and their repetition do not change
    the answer of [get_diseases_from_neo4j]: two lists with the same
    lower-cased, trimmed symptoms get the same records. *)
Theorem get_diseases_reads_symptoms_as_set st a b top_n :
  (forall x, x ∈ symptom_list_of a <-> x ∈ symptom_list_of b) ->
  get_diseases_from_neo4j st a top_n = get_diseases_from_neo4j st b top_n.
Proof. apply get_diseases_ext. Qed.

(** The case of the user's symptoms and the white space around them do
    not change the answer of [get_diseases_from_neo4j]. *)
Theorem get_diseases_ignores_case_and_margins st user_symptoms top_n :
  get_diseases_from_neo4j st (PyStr.lower <$> user_symptoms) top_n
    = get_diseases_from_neo4j st user_symptoms top_n /\
  get_diseases_from_neo4j st (PyStr.strip <$> user_symptoms) top_n
    = get_diseases_from_neo4j st user_symptoms top_n /\
  get_diseases_from_neo4j st (symptom_list_of user_symptoms) top_n
    = get_diseases_from_neo4j st user_symptoms top_n.
Proof.
  repeat split; apply get_diseases_ext; intros x.
  - replace (symptom_list_of (PyStr.lower <$> user_symptoms))
      with (symptom_list_of user_symptoms); [reflexivity|].
    unfold symptom_list_of. rewrite <- list_fmap_compose.
    apply list_fmap_ext. intros i s _. symmetry. apply (key_of_lower s).
  - replace (symptom_list_of (PyStr.strip <$> user_symptoms))
      with (symptom_list_of user_symptoms); [reflexivity|].
    unfold symptom_list_of. rewrite <- list_fmap_compose.
    apply list_fmap_ext. intros i s _. symmetry. apply (key_of_strip s).
  - rewrite symptom_list_of_idempotent. reflexivity.
Qed.


(** Every record stands for a disease node of the graph with one matched
    symptom at least, and every matched symptom is the name of a symptom
    node that this disease has a relationship to and that the user asked
    for, case apart. *)
Theorem records_match_the_query g user_symptoms top_n :
  exists out records,
    get_diseases_from_neo4j (Online g) user_symptoms top_n = IO out (Ok records) /\
    Forall (fun r =>
              (1 <= match_count r)%Z /\
              exists d, d ∈ (has_symptom g).*1 /\ disease r = name d /\
                forall s, s ∈ matched_symptoms r ->
                  Cypher.toLower s ∈ symptom_list_of user_symptoms /\
                  exists d' sn, (d', sn) ∈ has_symptom g /\
                                node_id d' = node_id d /\ name sn = s)
      records.
Proof.
  destruct (get_diseases_returns (Online g) user_symptoms top_n)
    as (out & records & Hrun).
  exists out, records. split; [exact Hrun|].
  apply Forall_forall. intros r Hr.
  apply (get_diseases_elem _ _ _ _ _ _ Hrun) in Hr.
  unfold Cypher.with_aggregates in Hr.
  apply list_elem_of_fmap in Hr as (d & -> & Hd). cbn.
  apply grouping_keys_subseteq in Hd.
  apply list_elem_of_fmap in Hd as ([d1 s1] & -> & Hrow). cbn.
  split.
  - assert (Hin : s1 ∈ Cypher.group_of d1
                         (Cypher.match_where g (symptom_list_of user_symptoms))).
    { unfold Cypher.group_of. apply list_elem_of_fmap.
      exists (d1, s1). split; [reflexivity|].
      apply list_elem_of_filter. split; [reflexivity | exact Hrow]. }
    destruct (Cypher.group_of d1 _); [apply elem_of_nil in Hin; contradiction|].
    cbn. lia.
  - exists d1. split; [|split; [reflexivity|]].
    + apply list_elem_of_filter in Hrow as [_ Hrow].
      apply list_elem_of_fmap. exists (d1, s1). split; [reflexivity | exact Hrow].
    + intros s Hs. apply list_elem_of_fmap in Hs as (sn & -> & Hsn).
      unfold Cypher.group_of in Hsn.
      apply list_elem_of_fmap in Hsn as ([d0 s0] & -> & H0). cbn.
      apply list_elem_of_filter in H0 as [Hid H0].
      apply list_elem_of_filter in H0 as [Hq H0]. cbn in *.
      split; [exact Hq|].
      exists d0, s0. repeat split; assumption.
Qed.

(** The records left out by the limit have counts not above those of the
    records returned: the answer is a selection of the greatest counts
    among all the diseases that match. *)
Theorem limit_keeps_greatest_counts g user_symptoms top_n :
  (0 <= top_n)%Z ->
  exists records rest,
    get_diseases_from_neo4j (Online g) user_symptoms top_n = IO [] (Ok records) /\
    records ++ rest ≡ₚ
      Cypher.with_aggregates
        (Cypher.match_where g (symptom_list_of user_symptoms)) /\
    forall r r', r ∈ records -> r' ∈ rest ->
      (match_count r' <= match_count r)%Z.
Proof.
  intros Hpos. rewrite get_diseases_online by exact Hpos.
  set (sorted := Cypher.order_by_match_count_desc _).
  exists (take (Z.to_nat top_n) sorted), (drop (Z.to_nat top_n) sorted).
  split; [reflexivity|]. split.
  - rewrite take_drop. apply merge_sort_Permutation.
  - intros r r' Hr Hr'.
    assert (Hsorted : StronglySorted Cypher.count_desc sorted)
      by (apply StronglySorted_merge_sort; apply _).
    rewrite <- (take_drop (Z.to_nat top_n) sorted) in Hsorted.
    exact (StronglySorted_app_1_elem_of _ _ _ _ _ Hsorted Hr Hr').
Qed.

Lemma grouping_keys_complete (ds : list node) (d : node) :
  d ∈ ds -> exists d', d' ∈ Cypher.grouping_keys ds /\ node_id d' = node_id d.
Proof.
  induction ds as [|d0 rest IH]; [intros H; apply elem_of_nil in H; contradiction|].
  intros [->|Hin]%elem_of_cons.
  - exists d0. split; [left | reflexivity].
  - destruct (IH Hin) as (d' & Hd' & Hid).
    destruct (decide (node_id d' = node_id d0)) as [Heq|Hne].
    + exists d0. split; [left | congruence].
    + exists d'. split; [|exact Hid]. cbn. right.
      apply list_elem_of_filter. split; assumption.
Qed.

Lemma match_found_under_limit g user_symptoms top_n d s :
  (Z.of_nat (length (Cypher.with_aggregates
                       (Cypher.match_where g (symptom_list_of user_symptoms))))
   <= top_n)%Z ->
  (d, s) ∈ has_symptom g ->
  Cypher.toLower (name s) ∈ symptom_list_of user_symptoms ->
  exists records r d',
    get_diseases_from_neo4j (Online g) user_symptoms top_n = IO [] (Ok records) /\
    r ∈ records /\
    d' ∈ (has_symptom g).*1 /\ node_id d' = node_id d /\
    disease r = name d' /\
    name s ∈ matched_symptoms r.
Proof.
  intros Hfit Hedge Hasked.
  rewrite get_diseases_online by lia.
  set (rows := Cypher.match_where g (symptom_list_of user_symptoms)) in *.
  assert (Hrow : (d, s) ∈ rows).
  { apply list_elem_of_filter. split; assumption. }
  destruct (grouping_keys_complete rows.*1 d) as (d' & Hkey & Hid).
  { apply list_elem_of_fmap. exists (d, s). split; [reflexivity | exact Hrow]. }
  eexists _, (MatchRecord (name d') (name <$> Cypher.group_of d' rows)
                (Z.of_nat (length (Cypher.group_of d' rows)))), d'.
  split; [reflexivity|]. split; [|split; [|repeat split]].
  - rewrite take_ge.
    + unfold Cypher.order_by_match_count_desc. rewrite merge_sort_Permutation.
      unfold Cypher.with_aggregates. apply list_elem_of_fmap.
      exists d'. split; [reflexivity | exact Hkey].
    + unfold Cypher.order_by_match_count_desc.
      rewrite merge_sort_Permutation. lia.
  - apply grouping_keys_subseteq in Hkey.
    apply list_elem_of_fmap in Hkey as ([d1 s1] & -> & H1).
    apply list_elem_of_filter in H1 as [_ H1].
    apply list_elem_of_fmap. exists (d1, s1). split; [reflexivity | exact H1].
  - exact Hid.
  - cbn. apply list_elem_of_fmap. exists s. split; [reflexivity|].
    unfold Cypher.group_of. apply list_elem_of_fmap.
    exists (d, s). split; [reflexivity|].
    apply list_elem_of_filter. split; [symmetry; exact Hid | exact Hrow].
Qed.

(** When no more diseases match than the limit allows, none is left out:
    a disease with a relationship to a symptom that the user asked for,
    case apart, has its record, with that symptom among the matched. *)
Theorem no_match_lost_under_limit g user_symptoms top_n d s :
  (Z.of_nat (length (Cypher.with_aggregates
                       (Cypher.match_where g (symptom_list_of user_symptoms))))
   <= top_n)%Z ->
  (d, s) ∈ has_symptom g ->
  Cypher.toLower (name s) ∈ symptom_list_of user_symptoms ->
  exists records r d',
    get_diseases_from_neo4j (Online g) user_symptoms top_n = IO [] (Ok records) /\
    r ∈ records /\
    d' ∈ (has_symptom g).*1 /\ node_id d' = node_id d /\
    disease r = name d' /\
    name s ∈ matched_symptoms r.
Proof. apply match_found_under_limit. Qed.

Lemma grouping_keys_NoDup (ds : list node) :
  NoDup (node_id <$> Cypher.grouping_keys ds).
Proof.
  induction ds as [|d0 rest IH]; cbn; [constructor|].
  apply NoDup_cons. split.
  - intros (d & Hid & Hd)%list_elem_of_fmap.
    apply list_elem_of_filter in Hd as [Hne _]. congruence.
  - eapply sublist_NoDup; [exact IH|].
    apply fmap_sublist, sublist_filter.
Qed.

Lemma diseases_NoDup g user_symptoms top_n :
  (forall d1 d2, d1 ∈ (has_symptom g).*1 -> d2 ∈ (has_symptom g).*1 ->
     name d1 = name d2 -> node_id d1 = node_id d2) ->
  exists out records,
    get_diseases_from_neo4j (Online g) user_symptoms top_n = IO out (Ok records) /\
    NoDup (disease <$> records).
Proof.
  intros Hnames.
  destruct (Z.lt_ge_cases top_n 0) as [Hneg|Hpos].
  { destruct (get_diseases_negative_limit g user_symptoms top_n Hneg) as [out H].
    exists out, []. split; [exact H | constructor]. }
  rewrite get_diseases_online by exact Hpos.
  eexists _, _. split; [reflexivity|].
  set (rows := Cypher.match_where g (symptom_list_of user_symptoms)).
  rewrite fmap_take. eapply sublist_NoDup; [|apply sublist_take].
  unfold Cypher.order_by_match_count_desc. rewrite merge_sort_Permutation.
  unfold Cypher.with_aggregates. rewrite <- list_fmap_compose.
  change (NoDup (name <$> Cypher.grouping_keys rows.*1)).
  apply NoDup_fmap_2_strong.
  - intros [i1 n1] [i2 n2] H1 H2 Hn. cbn in Hn.
    assert (Hin : forall d, d ∈ Cypher.grouping_keys rows.*1 ->
                    d ∈ (has_symptom g).*1).
    { intros d Hd. apply grouping_keys_subseteq in Hd.
      apply list_elem_of_fmap in Hd as ([d1 s1] & -> & Hrow).
      apply list_elem_of_filter in Hrow as [_ Hrow].
      apply list_elem_of_fmap. exists (d1, s1). split; [reflexivity | exact Hrow]. }
    specialize (Hnames _ _ (Hin _ H1) (Hin _ H2) Hn). cbn in Hnames.
    congruence.
  - eapply NoDup_fmap_1. apply grouping_keys_NoDup.
Qed.

(** When distinct disease nodes have distinct names, as the nodes merged
    by name have, no disease comes twice in the answer. *)
Theorem each_disease_once g user_symptoms top_n :
  (forall d1 d2, d1 ∈ (has_symptom g).*1 -> d2 ∈ (has_symptom g).*1 ->
     name d1 = name d2 -> node_id d1 = node_id d2) ->
  exists out records,
    get_diseases_from_neo4j (Online g) user_symptoms top_n = IO out (Ok records) /\
    NoDup (disease <$> records).
Proof. apply diseases_NoDup. Qed.

Lemma string_leb_trans (a b c : string) :
  String.leb a b = true -> String.leb b c = true -> String.leb a c = true.
Proof.
  revert b c. induction a as [|x a IH]; intros [|y b] [|z c]; cbn;
    try reflexivity; try discriminate.
  unfold String.leb in *. cbn. unfold Ascii.compare.
  destruct (N.compare_spec (N_of_ascii x) (N_of_ascii y)) as [Hxy|Hxy|Hxy];
    destruct (N.compare_spec (N_of_ascii y) (N_of_ascii z)) as [Hyz|Hyz|Hyz];
    destruct (N.compare_spec (N_of_ascii x) (N_of_ascii z)) as [Hxz|Hxz|Hxz];
    try discriminate; try reflexivity; try lia.
  apply IH.
Qed.

#[local] Instance name_asc_total : Total Cypher.name_asc.
Proof. intros a b. apply String.leb_total. Qed.

#[local] Instance name_asc_trans : Transitive Cypher.name_asc.
Proof. intros a b c. apply string_leb_trans. Qed.

(** With the store in reach, [get_all_symptoms_from_neo4j] prints nothing
    and returns the names of all the symptom nodes, each as often as a
    node has it, in ascending order. *)
Theorem all_symptoms_sorted g :
  exists names,
    get_all_symptoms_from_neo4j (Online g) = IO [] (Ok names) /\
    names ≡ₚ name <$> symptom_nodes g /\
    StronglySorted Cypher.name_asc names.
Proof.
  exists (Cypher.symptom_query g). split; [reflexivity|].
  unfold Cypher.symptom_query. split.
  - apply merge_sort_Permutation.
  - apply StronglySorted_merge_sort; apply _.
Qed.

(** ** More on the session *)

Section SessionMore.

Variable scorer : string -> string -> Q.
Variable tensor : Type.
Variable get_clinicalbert_embedding : string -> result tensor.
Variable cosine_similarity : tensor -> tensor -> Q.
Variable Agent : Type.
Variable create_symptom_checker_agent : string -> result Agent.
Variable kickoff : Agent -> list string -> list match_record -> result string.

Local Abbreviation normalize :=
  (normalize_symptom scorer tensor get_clinicalbert_embedding cosine_similarity).
Local Abbreviation normalize_each :=
  (normalize_all scorer tensor get_clinicalbert_embedding cosine_similarity).
Local Abbreviation body :=
  (main_body scorer tensor get_clinicalbert_embedding cosine_similarity
     Agent create_symptom_checker_agent kickoff).
Local Abbreviation session :=
  (main scorer tensor get_clinicalbert_embedding cosine_similarity
     Agent create_symptom_checker_agent kickoff).
Local Abbreviation ready := (ready create_symptom_checker_agent).

(** Evaluation of the session that leaves its texts as they are. *)
Ltac run_session :=
  cbn -[Nat.ltb take length PyStr.join pretty newline String.append
        PyStr.strip user_symptoms_of].



Lemma normalize_all_raises all_symptoms user_symptoms : forall valid0 invalid0,
  (exists s e, s ∈ user_symptoms /\ normalize s all_symptoms = Raise e) ->
  exists s e, s ∈ user_symptoms /\ normalize s all_symptoms = Raise e /\
              normalize_each all_symptoms user_symptoms valid0 invalid0 = Raise e.
Proof.
  induction user_symptoms as [|s0 rest IH]; intros valid0 invalid0 (s & e & Hin & He).
  - apply elem_of_nil in Hin. contradiction.
  - cbn. destruct (normalize s0 all_symptoms) as [o|e0] eqn:H0.
    + apply elem_of_cons in Hin as [->|Hin]; [congruence|].
      cbn.
      assert (Hex : exists s e, s ∈ rest /\ normalize s all_symptoms = Raise e)
        by eauto.
      destruct o as [n|]; [destruct (PyStr.truthy n)|];
        (edestruct IH as (s' & e' & Hin' & He' & ->); [exact Hex|];
         exists s', e'; split; [right; exact Hin' | split; [exact He' | reflexivity]]).
    + exists s0, e0. split; [left|]. split; [exact H0 | reflexivity].
Qed.

Lemma normalize_all_none all_symptoms user_symptoms : forall valid0 invalid0,
  Forall (fun s => normalize s all_symptoms = Ok None) user_symptoms ->
  normalize_each all_symptoms user_symptoms valid0 invalid0
  = Ok (valid0, invalid0 ++ user_symptoms).
Proof.
  induction user_symptoms as [|s rest IH]; intros valid0 invalid0 Hall.
  - cbn. rewrite app_nil_r. reflexivity.
  - apply Forall_cons in Hall as [Hs Hrest].
    cbn. rewrite Hs. cbn. rewrite IH by exact Hrest.
    rewrite <- app_assoc. reflexivity.
Qed.

(** A line of white space only, or none, ends the session at once. *)
Theorem blank_input_ends_session env g line :
  ready env g ->
  stdin env = Ok line ->
  PyStr.strip line = "" ->
  session env =
    welcome (Cypher.symptom_query g)
    ++ [Print "No symptoms entered. Exiting."; CloseDriver].
Proof.
  intros ((key & Hkey & Htruthy & a & Hagent) & Hdriver & Hvoc) Hin Hblank.
  unfold main, main_body, welcome, input.
  rewrite Hkey, Htruthy, Hagent, Hdriver, Hin. run_session.
  destruct (Cypher.symptom_query g) as [|n names] eqn:Hnames; [congruence|].
  run_session.
  destruct (30 <? length (n :: names))%nat; run_session;
    rewrite Hblank; reflexivity.
Qed.

(** When reading the line fails, the session shows the handler's line and
    ends: the end of input as the error "EOF when reading a line", the
    interrupt as a cancellation. *)
Theorem failed_input_ends_session env g e :
  ready env g ->
  stdin env = Raise e ->
  session env =
    welcome (Cypher.symptom_query g) ++ [handler_line e; CloseDriver].
Proof.
  intros ((key & Hkey & Htruthy & a & Hagent) & Hdriver & Hvoc) Hin.
  unfold main, main_body, welcome, input.
  rewrite Hkey, Htruthy, Hagent, Hdriver, Hin. run_session.
  destruct (Cypher.symptom_query g) as [|n names] eqn:Hnames; [congruence|].
  run_session.
  destruct (30 <? length (n :: names))%nat; run_session; destruct e; reflexivity.
Qed.

(** When the normaliser raises on one of the entered symptoms, the
    session ends on the handler's line: nothing is shown of the symptoms
    normalised before, and no disease is looked up. *)
Theorem normalizer_failure_ends_session env g line :
  ready env g ->
  stdin env = Ok line ->
  (exists s e, s ∈ user_symptoms_of (PyStr.strip line) /\
               normalize s (Cypher.symptom_query g) = Raise e) ->
  exists s e,
    s ∈ user_symptoms_of (PyStr.strip line) /\
    normalize s (Cypher.symptom_query g) = Raise e /\
    session env =
      welcome (Cypher.symptom_query g) ++ [handler_line e; CloseDriver].
Proof.
  intros ((key & Hkey & Htruthy & a & Hagent) & Hdriver & Hvoc) Hin Hfail.
  assert (Hline : PyStr.truthy (PyStr.strip line) = true).
  { destruct (PyStr.strip line); [|reflexivity].
    destruct Hfail as (s & e & Hs & _). cbn in Hs.
    apply elem_of_nil in Hs. contradiction. }
  destruct (normalize_all_raises (Cypher.symptom_query g)
              (user_symptoms_of (PyStr.strip line)) [] [] Hfail)
    as (s & e & Hs & He & Hrun).
  exists s, e. split; [exact Hs|]. split; [exact He|].
  unfold main, main_body, welcome, input.
  rewrite Hkey, Htruthy, Hagent, Hdriver, Hin. run_session.
  destruct (Cypher.symptom_query g) as [|n names] eqn:Hnames; [congruence|].
  fold (user_symptoms_of (PyStr.strip line)). run_session.
  destruct (30 <? length (n :: names))%nat; run_session; rewrite Hline;
    run_session; rewrite Hrun; destruct e; reflexivity.
Qed.

(** When none of the entered symptoms is recognised, the session names
    them all in its warning and ends: no disease is looked up and no
    analysis is made. *)
Theorem nothing_recognised_ends_session env g line :
  ready env g ->
  stdin env = Ok line ->
  user_symptoms_of (PyStr.strip line) <> [] ->
  Forall (fun s => normalize s (Cypher.symptom_query g) = Ok None)
    (user_symptoms_of (PyStr.strip line)) ->
  session env =
    welcome (Cypher.symptom_query g)
    ++ [ Print (newline ++ "Warning: These symptoms were not recognized: "
                  ++ PyStr.join ", " (user_symptoms_of (PyStr.strip line)));
         Print "No valid symptoms found in database. Please check your input.";
         CloseDriver ].
Proof.
  intros ((key & Hkey & Htruthy & a & Hagent) & Hdriver & Hvoc) Hin Hne Hnone.
  assert (Hline : PyStr.truthy (PyStr.strip line) = true).
  { destruct (PyStr.strip line); [|reflexivity]. cbn in Hne. congruence. }
  pose proof (normalize_all_none (Cypher.symptom_query g) _ [] [] Hnone) as Hrun.
  cbn in Hrun.
  unfold main, main_body, welcome, input.
  rewrite Hkey, Htruthy, Hagent, Hdriver, Hin. run_session.
  destruct (Cypher.symptom_query g) as [|n names] eqn:Hnames; [congruence|].
  fold (user_symptoms_of (PyStr.strip line)). run_session.
  destruct (30 <? length (n :: names))%nat; run_session; rewrite Hline;
    run_session; rewrite Hrun;
    destruct (user_symptoms_of (PyStr.strip line));
    [congruence | reflexivity | congruence | reflexivity].
Qed.

Lemma keeps_driver_print {line} : keeps_driver (print line).
Proof.
  unfold keeps_driver. cbn. intros [H|H]%elem_of_cons; [discriminate|].
  apply elem_of_nil in H. exact H.
Qed.

Lemma keeps_driver_ret {A} (a : A) : keeps_driver (mret a).
Proof. unfold keeps_driver. cbn. apply not_elem_of_nil. Qed.

Lemma keeps_driver_lift {A} (r : result A) : keeps_driver (lift r).
Proof. unfold keeps_driver. cbn. apply not_elem_of_nil. Qed.

Lemma keeps_driver_bind {A B} (m : io A) (k : A -> io B) :
  keeps_driver m -> (forall a, keeps_driver (k a)) -> keeps_driver (m ≫= k).
Proof.
  unfold keeps_driver, mbind, io_bind. intros Hm Hk.
  destruct (value m) as [a|e]; cbn; [|exact Hm].
  intros [H|H]%elem_of_app; [exact (Hm H) | exact (Hk a H)].
Qed.

Lemma keeps_driver_input env prompt : keeps_driver (input env prompt).
Proof.
  unfold keeps_driver. cbn. intros [H|H]%elem_of_cons; [discriminate|].
  apply elem_of_nil in H. exact H.
Qed.

Lemma keeps_driver_try {A} (m : io A) (handler : exception -> io A) :
  keeps_driver m -> (forall e, keeps_driver (handler e)) ->
  keeps_driver (try_except m handler).
Proof.
  unfold keeps_driver, try_except. intros Hm Hh.
  destruct (value m) as [a|e]; [exact Hm|].
  destruct (is_Exception e); [|exact Hm]. cbn.
  intros [H|H]%elem_of_app; [exact (Hm H) | exact (Hh e H)].
Qed.

Lemma keeps_driver_get_all st : keeps_driver (get_all_symptoms_from_neo4j st).
Proof.
  unfold get_all_symptoms_from_neo4j. apply keeps_driver_try.
  - apply keeps_driver_bind; [apply keeps_driver_lift|].
    intros a. apply keeps_driver_ret.
  - intros e. apply keeps_driver_bind; [apply keeps_driver_print|].
    intros _. apply keeps_driver_ret.
Qed.

Lemma keeps_driver_get_diseases st user_symptoms top_n :
  keeps_driver (get_diseases_from_neo4j st user_symptoms top_n).
Proof.
  unfold get_diseases_from_neo4j. apply keeps_driver_try.
  - apply keeps_driver_bind; [apply keeps_driver_lift|].
    intros a. apply keeps_driver_ret.
  - intros e. apply keeps_driver_bind; [apply keeps_driver_print|].
    intros _. apply keeps_driver_ret.
Qed.

Lemma keeps_driver_print_matches ds : forall idx,
  keeps_driver (print_matches idx ds).
Proof.
  induction ds as [|d rest IH]; intros idx; cbn [print_matches].
  - apply keeps_driver_ret.
  - apply keeps_driver_bind; [apply keeps_driver_print|]. intros _. apply IH.
Qed.

Ltac keep_driver :=
  repeat first
    [ apply keeps_driver_print
    | apply keeps_driver_ret
    | apply keeps_driver_lift
    | apply keeps_driver_input
    | apply keeps_driver_get_all
    | apply keeps_driver_get_diseases
    | apply keeps_driver_print_matches
    | apply keeps_driver_bind; [|intros ?]
    | match goal with
      | |- keeps_driver (match ?x with _ => _ end) => destruct x
      | |- keeps_driver (let (_, _) := ?x in _) => destruct x
      end ].

Lemma keeps_driver_body env : keeps_driver (body env).
Proof. unfold main_body. keep_driver. Qed.

(** Whatever the environment and whatever fails, the session closes the
    driver once, as the last thing it does. *)
Theorem driver_closed_once_at_the_end env :
  exists shown,
    main scorer tensor get_clinicalbert_embedding cosine_similarity
      Agent create_symptom_checker_agent kickoff env
    = shown ++ [CloseDriver] /\
    CloseDriver ∉ shown.
Proof.
  unfold main. eexists. split; [rewrite app_assoc; reflexivity|].
  intros [H|H]%elem_of_app.
  - exact (keeps_driver_body env H).
  - destruct (value (body env)) as [u|e].
    + apply elem_of_nil in H. exact H.
    + destruct e; apply elem_of_cons in H as [H|H];
        try discriminate; apply elem_of_nil in H; exact H.
Qed.

End SessionMore.

(** ** The symptoms read off the line *)

Lemma split_on_no_sep (sep : ascii) (s : string) : forall f,
  f ∈ PyStr.split_on sep s -> sep ∉ chars f.
Proof.
  induction s as [|c r IH]; intros f Hf; cbn in Hf.
  - apply elem_of_cons in Hf as [->|Hf]; [|apply elem_of_nil in Hf; contradiction].
    apply not_elem_of_nil.
  - destruct (Ascii.eqb c sep) eqn:Hc.
    + apply elem_of_cons in Hf as [->|Hf]; [apply not_elem_of_nil | exact (IH f Hf)].
    + apply Ascii.eqb_neq in Hc.
      destruct (PyStr.split_on sep r) as [|f0 fs].
      * apply elem_of_cons in Hf as [->|Hf]; [|apply elem_of_nil in Hf; contradiction].
        cbn. intros [H|H]%elem_of_cons; [congruence|].
        apply elem_of_nil in H. exact H.
      * apply elem_of_cons in Hf as [->|Hf].
        -- cbn. intros [H|H]%elem_of_cons; [congruence|].
           apply (IH f0); [left | exact H].
        -- apply IH. right. exact Hf.
Qed.

Lemma chars_lstrip (s : string) (c : ascii) :
  c ∈ chars (PyStr.lstrip s) -> c ∈ chars s.
Proof.
  induction s as [|x r IH]; cbn; [trivial|].
  destruct (PyStr.isspace x); [|trivial].
  intros H. right. exact (IH H).
Qed.

Lemma chars_rstrip (s : string) (c : ascii) :
  c ∈ chars (PyStr.rstrip s) -> c ∈ chars s.
Proof.
  induction s as [|x r IH]; cbn; [trivial|].
  destruct (PyStr.rstrip r) as [|y r'].
  - destruct (PyStr.isspace x); cbn.
    + intros H. apply elem_of_nil in H. contradiction.
    + intros [->|H]%elem_of_cons; [left|].
      apply elem_of_nil in H. contradiction.
  - cbn. intros [->|H]%elem_of_cons; [left|]. right. apply IH. exact H.
Qed.

(** The symptoms that [crew.main] reads off the line entered are not
    empty, have no white space around them and hold no comma. *)
Theorem entered_symptoms_are_clean (user_in : string) :
  Forall (fun s => s <> "" /\ PyStr.strip s = s /\ ","%char ∉ chars s)
    (user_symptoms_of user_in).
Proof.
  apply Forall_forall. intros s Hs. unfold user_symptoms_of in Hs.
  apply list_elem_of_fmap in Hs as (f & -> & Hf).
  apply list_elem_of_In, filter_In in Hf as [Hf Htruthy].
  apply list_elem_of_In in Hf.
  split; [|split].
  - intros Hempty. rewrite Hempty in Htruthy. discriminate.
  - apply strip_idempotent.
  - intros Hcomma. apply (split_on_no_sep _ _ _ Hf).
    apply chars_lstrip, chars_rstrip. exact Hcomma.
Qed.

(** ** From the entered symptom to its diseases *)

(** A symptom entered as the name of a symptom node, case and margins
    apart, and not an alias key, is normalised against the vocabulary of
    the graph to its lower-cased form, and the query for that form finds
    every disease with a relationship to the node, when the limit leaves
    room for all that match. *)
Theorem exact_symptom_finds_its_diseases scorer tensor
    (get_clinicalbert_embedding : string -> result tensor)
    (cosine_similarity : tensor -> tensor -> Q) g symptom d s top_n :
  (d, s) ∈ has_symptom g ->
  s ∈ symptom_nodes g ->
  SYMPTOM_MAP !! key_of symptom = None ->
  key_of symptom = PyStr.lower (name s) ->
  (Z.of_nat (length (Cypher.with_aggregates
                       (Cypher.match_where g (symptom_list_of [key_of symptom]))))
   <= top_n)%Z ->
  normalize_symptom scorer tensor get_clinicalbert_embedding cosine_similarity
    symptom (Cypher.symptom_query g) = Ok (Some (key_of symptom)) /\
  exists records r d',
    get_diseases_from_neo4j (Online g) [key_of symptom] top_n
      = IO [] (Ok records) /\
    r ∈ records /\
    d' ∈ (has_symptom g).*1 /\ node_id d' = node_id d /\
    disease r = name d' /\
    name s ∈ matched_symptoms r.
Proof.
  intros Hedge Hnode Hno Hkey Hfit. split.
  - apply normalize_layer2; [exact Hno|].
    rewrite Hkey. apply list_elem_of_fmap_2.
    unfold Cypher.symptom_query. rewrite merge_sort_Permutation.
    apply list_elem_of_fmap_2. exact Hnode.
  - apply match_found_under_limit; [exact Hfit | exact Hedge |].
    unfold symptom_list_of. cbn. fold (key_of (key_of symptom)).
    rewrite key_of_idempotent, Hkey. left.
Qed.

(** ** The further properties on concrete inputs *)

(** Case analysis on the membership in a list that is written out. *)
Ltac each_elem x Hx tac :=
  intros x Hx;
  repeat (apply elem_of_cons in Hx as [->|Hx]; [tac|]);
  apply elem_of_nil in Hx; contradiction.

Lemma fuzzy_match_returns_best_witness :
  exists m,
    m ∈ ["cough"; "fever"; "fatigue"] /\
    (forall x, x ∈ ["cough"; "fever"; "fatigue"] ->
       (Toy.prefix_scorer "fev" x <= Toy.prefix_scorer "fev" m)%Q) /\
    fuzzy_match Toy.prefix_scorer "fev" ["cough"; "fever"; "fatigue"]
    = Ok (if Qgtb (Toy.prefix_scorer "fev" m) 80 then Some m else None).
Proof.
  apply (fuzzy_match_returns_best Toy.prefix_scorer "fev"
           ["cough"; "fever"; "fatigue"]).
  - discriminate.
  - each_elem x Hx ltac:(vm_compute; split; discriminate).
Defined.

Lemma closest_symptom_is_most_similar_witness :
  exists best_match max_sim,
    get_closest_symptom_with_bert nat Toy.embedding Toy.cosine "chill"
      ["cough"; "headache"] = Ok (best_match, max_sim) /\
    (forall x, x ∈ ["cough"; "headache"] ->
       exists v, Toy.embedding (PyStr.lower x) = Ok v /\
                 (Toy.cosine 5 v <= max_sim)%Q) /\
    ((best_match = None /\ max_sim = (-1)%Q) \/
     (exists m v, m ∈ ["cough"; "headache"] /\ best_match = Some m /\
                  Toy.embedding (PyStr.lower m) = Ok v /\
                  max_sim = Toy.cosine 5 v /\ (-1 < max_sim)%Q)).
Proof.
  apply (closest_symptom_is_most_similar nat Toy.embedding Toy.cosine "chill"
           ["cough"; "headache"] 5%nat).
  - reflexivity.
  - intros x _. eexists. reflexivity.
Defined.

Lemma normalize_result_provenance_witness :
  SYMPTOM_MAP !! key_of "SOB" = Some "shortness of breath" \/
  ("shortness of breath" = key_of "SOB" /\
     exists x, x ∈ ["cough"] /\ PyStr.lower x = "shortness of breath") \/
  "shortness of breath" ∈ ["cough"].
Proof.
  apply (normalize_result_provenance Toy.scorer nat Toy.embedding Toy.cosine
           "SOB" ["cough"] "shortness of breath").
  vm_compute. reflexivity.
Defined.

Lemma normalize_fuzzy_hit_witness :
  exists m,
    m ∈ ["cough"; "fever"] /\
    (80 < Toy.prefix_scorer (key_of " Fev") m)%Q /\
    (forall x, x ∈ ["cough"; "fever"] ->
       (Toy.prefix_scorer (key_of " Fev") x
        <= Toy.prefix_scorer (key_of " Fev") m)%Q) /\
    normalize_symptom Toy.prefix_scorer nat Toy.broken_embedding Toy.cosine
      " Fev" ["cough"; "fever"] = Ok (Some m).
Proof.
  apply (normalize_fuzzy_hit Toy.prefix_scorer nat Toy.broken_embedding
           Toy.cosine " Fev" ["cough"; "fever"]).
  - vm_compute. reflexivity.
  - intros H. repeat (apply elem_of_cons in H as [H|H]; [discriminate H|]).
    apply elem_of_nil in H. exact H.
  - intros H. repeat (apply elem_of_cons in H as [H|H]; [discriminate H|]).
    apply elem_of_nil in H. exact H.
  - each_elem x Hx ltac:(vm_compute; split; discriminate).
  - exists "fever". split; [right; left | vm_compute; reflexivity].
Defined.

Lemma normalize_semantic_hit_witness :
  exists m w,
    m ∈ ["headache"; "cough"] /\ Toy.embedding (PyStr.lower m) = Ok w /\
    (85 # 100 < Toy.cosine 5 w)%Q /\
    (forall x, x ∈ ["headache"; "cough"] ->
       exists v, Toy.embedding (PyStr.lower x) = Ok v /\
                 (Toy.cosine 5 v <= Toy.cosine 5 w)%Q) /\
    normalize_symptom Toy.scorer nat Toy.embedding Toy.cosine "zzzzz"
      ["headache"; "cough"] = Ok (Some m).
Proof.
  apply (normalize_semantic_hit Toy.scorer nat Toy.embedding Toy.cosine
           "zzzzz" ["headache"; "cough"] 5%nat).
  - split; [vm_compute; reflexivity|]. split.
    + intros H. repeat (apply elem_of_cons in H as [H|H]; [discriminate H|]).
      apply elem_of_nil in H. exact H.
    + exists None. split; vm_compute; reflexivity.
  - reflexivity.
  - intros x _. eexists. reflexivity.
  - exists "cough", 5%nat. split; [right; left|].
    split; [reflexivity | vm_compute; reflexivity].
Defined.

Lemma get_diseases_reads_symptoms_as_set_witness :
  get_diseases_from_neo4j (Online Toy.clinic) ["fever"; "Cough"; "fever "] 5
  = get_diseases_from_neo4j (Online Toy.clinic) ["cough"; "FEVER"] 5.
Proof.
  apply (get_diseases_reads_symptoms_as_set (Online Toy.clinic)
           ["fever"; "Cough"; "fever "] ["cough"; "FEVER"] 5).
  intros x. vm_compute symptom_list_of.
  rewrite !elem_of_cons, !elem_of_nil. tauto.
Defined.


Lemma limit_keeps_greatest_counts_witness :
  exists records rest,
    get_diseases_from_neo4j (Online Toy.clinic) ["cough"; "headache"] 1
      = IO [] (Ok records) /\
    records ++ rest ≡ₚ
      Cypher.with_aggregates
        (Cypher.match_where Toy.clinic (symptom_list_of ["cough"; "headache"])) /\
    forall r r', r ∈ records -> r' ∈ rest ->
      (match_count r' <= match_count r)%Z.
Proof.
  apply (limit_keeps_greatest_counts Toy.clinic ["cough"; "headache"] 1).
  lia.
Defined.

Lemma no_match_lost_under_limit_witness :
  exists records r d',
    get_diseases_from_neo4j (Online Toy.clinic) ["Cough"] 5 = IO [] (Ok records) /\
    r ∈ records /\
    d' ∈ (has_symptom Toy.clinic).*1 /\ node_id d' = node_id Toy.cold /\
    disease r = name d' /\
    name Toy.cough ∈ matched_symptoms r.
Proof.
  apply (no_match_lost_under_limit Toy.clinic ["Cough"] 5 Toy.cold Toy.cough).
  - vm_compute. discriminate.
  - left.
  - vm_compute. left.
Defined.

Lemma each_disease_once_witness :
  exists out records,
    get_diseases_from_neo4j (Online Toy.clinic) ["cough"; "fever"] 5
      = IO out (Ok records) /\
    NoDup (disease <$> records).
Proof.
  apply (each_disease_once Toy.clinic ["cough"; "fever"] 5).
  cbn. intros d1 d2 H1 H2.
  repeat (apply elem_of_cons in H1 as [->|H1]);
    try (apply elem_of_nil in H1; contradiction);
    repeat (apply elem_of_cons in H2 as [->|H2]);
    try (apply elem_of_nil in H2; contradiction);
    cbn; congruence.
Defined.

Lemma exact_symptom_finds_its_diseases_witness :
  normalize_symptom Toy.scorer nat Toy.broken_embedding Toy.cosine
    " headache" (Cypher.symptom_query Toy.clinic)
    = Ok (Some (key_of " headache")) /\
  exists records r d',
    get_diseases_from_neo4j (Online Toy.clinic) [key_of " headache"] 5
      = IO [] (Ok records) /\
    r ∈ records /\
    d' ∈ (has_symptom Toy.clinic).*1 /\ node_id d' = node_id Toy.flu /\
    disease r = name d' /\
    name Toy.headache ∈ matched_symptoms r.
Proof.
  apply (exact_symptom_finds_its_diseases Toy.scorer nat Toy.broken_embedding
           Toy.cosine Toy.clinic " headache" Toy.flu Toy.headache 5).
  - cbn. do 3 right. left.
  - cbn. do 2 right. left.
  - vm_compute. reflexivity.
  - vm_compute. reflexivity.
  - vm_compute. discriminate.
Defined.

Lemma desk_ready line : ready Toy.create_agent (Toy.desk line) Toy.clinic.
Proof.
  split; [|split; [reflexivity | vm_compute; discriminate]].
  exists "sk-test". split; [reflexivity|]. split; [reflexivity|].
  exists tt. reflexivity.
Defined.


Lemma blank_input_ends_session_witness :
  main Toy.scorer nat Toy.embedding Toy.cosine unit Toy.create_agent
    Toy.analyse (Toy.desk (Ok "   "))
  = welcome (Cypher.symptom_query Toy.clinic)
    ++ [Print "No symptoms entered. Exiting."; CloseDriver].
Proof.
  apply (blank_input_ends_session Toy.scorer nat Toy.embedding Toy.cosine unit
           Toy.create_agent Toy.analyse (Toy.desk (Ok "   ")) Toy.clinic "   ").
  - apply desk_ready.
  - reflexivity.
  - reflexivity.
Defined.

Lemma failed_input_ends_session_witness :
  main Toy.scorer nat Toy.embedding Toy.cosine unit Toy.create_agent
    Toy.analyse (Toy.desk (Raise EOFError))
  = welcome (Cypher.symptom_query Toy.clinic)
    ++ [Print "An error occurred: EOF when reading a line"; CloseDriver] /\
  main Toy.scorer nat Toy.embedding Toy.cosine unit Toy.create_agent
    Toy.analyse (Toy.desk (Raise KeyboardInterrupt))
  = welcome (Cypher.symptom_query Toy.clinic)
    ++ [Print (newline ++ "Operation cancelled by user."); CloseDriver].
Proof.
  split.
  - apply (failed_input_ends_session Toy.scorer nat Toy.embedding Toy.cosine
             unit Toy.create_agent Toy.analyse (Toy.desk (Raise EOFError))
             Toy.clinic EOFError).
    + apply desk_ready.
    + reflexivity.
  - apply (failed_input_ends_session Toy.scorer nat Toy.embedding Toy.cosine
             unit Toy.create_agent Toy.analyse
             (Toy.desk (Raise KeyboardInterrupt)) Toy.clinic KeyboardInterrupt).
    + apply desk_ready.
    + reflexivity.
Defined.

Lemma normalizer_failure_ends_session_witness :
  exists s e,
    s ∈ user_symptoms_of (PyStr.strip "fever, zzz ") /\
    normalize_symptom Toy.scorer nat Toy.broken_embedding Toy.cosine s
      (Cypher.symptom_query Toy.clinic) = Raise e /\
    main Toy.scorer nat Toy.broken_embedding Toy.cosine unit Toy.create_agent
      Toy.analyse (Toy.desk (Ok "fever, zzz "))
    = welcome (Cypher.symptom_query Toy.clinic) ++ [handler_line e; CloseDriver].
Proof.
  apply (normalizer_failure_ends_session Toy.scorer nat Toy.broken_embedding
           Toy.cosine unit Toy.create_agent Toy.analyse
           (Toy.desk (Ok "fever, zzz ")) Toy.clinic "fever, zzz ").
  - apply desk_ready.
  - reflexivity.
  - exists "zzz", (RuntimeError "CUDA out of memory").
    split; [vm_compute; right; left | vm_compute; reflexivity].
Defined.

Lemma nothing_recognised_ends_session_witness :
  main Toy.scorer nat Toy.embedding Toy.cosine unit Toy.create_agent
    Toy.analyse (Toy.desk (Ok "zzz, qq"))
  = welcome (Cypher.symptom_query Toy.clinic)
    ++ [ Print (newline ++ "Warning: These symptoms were not recognized: "
                  ++ PyStr.join ", " (user_symptoms_of (PyStr.strip "zzz, qq")));
         Print "No valid symptoms found in database. Please check your input.";
         CloseDriver ].
Proof.
  apply (nothing_recognised_ends_session Toy.scorer nat Toy.embedding Toy.cosine
           unit Toy.create_agent Toy.analyse (Toy.desk (Ok "zzz, qq"))
           Toy.clinic "zzz, qq").
  - apply desk_ready.
  - reflexivity.
  - vm_compute. discriminate.
  - vm_compute user_symptoms_of. repeat constructor.
Defined.

(** ** Properties of the population of the graph *)

Lemma NoDup_fmap_eq {A B} (f : A -> B) (l : list A) x y :
  NoDup (f <$> l) -> x ∈ l -> y ∈ l -> f x = f y -> x = y.
Proof.
  induction l as [|z l IH]; intros Hnd Hx Hy Hf.
  - apply elem_of_nil in Hx. contradiction.
  - cbn in Hnd. apply NoDup_cons in Hnd as [Hz Hnd].
    apply elem_of_cons in Hx as [->|Hx]; apply elem_of_cons in Hy as [->|Hy].
    + reflexivity.
    + exfalso. apply Hz. rewrite Hf. apply list_elem_of_fmap_2. exact Hy.
    + exfalso. apply Hz. rewrite <- Hf. apply list_elem_of_fmap_2. exact Hx.
    + apply IH; assumption.
Qed.

Lemma NoDup_snoc {A} (l : list A) (x : A) :
  NoDup l -> x ∉ l -> NoDup (l ++ [x]).
Proof.
  intros Hnd Hx. apply NoDup_app. split; [exact Hnd|]. split.
  - intros y Hy [->|H]%elem_of_cons; [exact (Hx Hy)|].
    apply elem_of_nil in H. exact H.
  - apply NoDup_singleton.
Qed.

Lemma find_named_elem n nodes x :
  x ∈ find_named n nodes <-> name x = n /\ x ∈ nodes.
Proof. unfold find_named. rewrite list_elem_of_filter. reflexivity. Qed.

Lemma find_named_nil n nodes :
  n ∉ name <$> nodes -> find_named n nodes = [].
Proof.
  intros Hn. destruct (find_named n nodes) as [|x l] eqn:Hf; [reflexivity|].
  exfalso. apply Hn.
  assert (Hx : x ∈ find_named n nodes) by (rewrite Hf; left).
  apply find_named_elem in Hx as [<- Hx]. apply list_elem_of_fmap_2. exact Hx.
Qed.

Lemma find_named_unique nodes d :
  NoDup (name <$> nodes) -> d ∈ nodes -> find_named (name d) nodes = [d].
Proof.
  induction nodes as [|x rest IH]; intros Hnd Hd.
  - apply elem_of_nil in Hd. contradiction.
  - cbn in Hnd. apply NoDup_cons in Hnd as [Hx Hnd].
    unfold find_named. rewrite filter_cons.
    apply elem_of_cons in Hd as [->|Hd].
    + rewrite decide_True by reflexivity. f_equal.
      apply find_named_nil. exact Hx.
    + rewrite decide_False.
      * apply IH; assumption.
      * intros Heq. apply Hx. rewrite Heq. apply list_elem_of_fmap_2. exact Hd.
Qed.

Lemma merge_disease_spec n db :
  consistent db ->
  consistent (merge_disease n db) /\
  contents (merge_disease n db) = contents db /\
  (forall x, x ∈ name <$> disease_nodes (merge_disease n db) <->
             x ∈ name <$> disease_nodes db \/ x = n).
Proof.
  intros [Hdn Hsn Hdi Hsi Hlt Hjoin Hrel]. unfold merge_disease.
  destruct (find_named n (disease_nodes db)) as [|x0 l] eqn:Hf.
  - assert (Hfresh : n ∉ name <$> disease_nodes db).
    { intros (x & -> & Hx)%list_elem_of_fmap.
      assert (H : x ∈ find_named (name x) (disease_nodes db))
        by (apply find_named_elem; split; [reflexivity | exact Hx]).
      rewrite Hf in H. apply elem_of_nil in H. exact H. }
    split; [|split; [reflexivity|]].
    + constructor; cbn.
      * rewrite fmap_app. apply NoDup_snoc; assumption.
      * exact Hsn.
      * rewrite fmap_app. apply NoDup_snoc; [exact Hdi|]. cbn.
        intros (x & Hid & Hx)%list_elem_of_fmap.
        assert (node_id x < next_id db) by (apply Hlt, elem_of_app; left; exact Hx).
        lia.
      * exact Hsi.
      * intros x [[Hx|Hx]%elem_of_app|Hx]%elem_of_app.
        -- assert (node_id x < next_id db) by (apply Hlt, elem_of_app; left; exact Hx).
           lia.
        -- apply list_elem_of_singleton in Hx as ->. cbn. lia.
        -- assert (node_id x < next_id db) by (apply Hlt, elem_of_app; right; exact Hx).
           lia.
      * intros ds Hds. destruct (Hjoin ds Hds) as [H1 H2].
        split; [apply elem_of_app; left; exact H1 | exact H2].
      * exact Hrel.
    + intros x. cbn. rewrite fmap_app, elem_of_app. cbn.
      rewrite list_elem_of_singleton. reflexivity.
  - split; [constructor; assumption|]. split; [reflexivity|].
    intros x. split; [left; assumption|].
    intros [H| ->]; [exact H|].
    assert (Hx : x0 ∈ find_named n (disease_nodes db)) by (rewrite Hf; left).
    apply find_named_elem in Hx as [<- Hx]. apply list_elem_of_fmap_2. exact Hx.
Qed.

Lemma merge_symptom_spec n db :
  consistent db ->
  consistent (merge_symptom n db) /\
  disease_nodes (merge_symptom n db) = disease_nodes db /\
  has_symptom (contents (merge_symptom n db)) = has_symptom (contents db) /\
  (forall x, x ∈ name <$> symptom_nodes (contents (merge_symptom n db)) <->
             x ∈ name <$> symptom_nodes (contents db) \/ x = n).
Proof.
  intros [Hdn Hsn Hdi Hsi Hlt Hjoin Hrel]. unfold merge_symptom.
  destruct (find_named n (symptom_nodes (contents db))) as [|x0 l] eqn:Hf.
  - assert (Hfresh : n ∉ name <$> symptom_nodes (contents db)).
    { intros (x & -> & Hx)%list_elem_of_fmap.
      assert (H : x ∈ find_named (name x) (symptom_nodes (contents db)))
        by (apply find_named_elem; split; [reflexivity | exact Hx]).
      rewrite Hf in H. apply elem_of_nil in H. exact H. }
    split; [|split; [reflexivity|split; [reflexivity|]]].
    + constructor; cbn.
      * exact Hdn.
      * rewrite fmap_app. apply NoDup_snoc; assumption.
      * exact Hdi.
      * rewrite fmap_app. apply NoDup_snoc; [exact Hsi|]. cbn.
        intros (x & Hid & Hx)%list_elem_of_fmap.
        assert (node_id x < next_id db) by (apply Hlt, elem_of_app; right; exact Hx).
        lia.
      * intros x [Hx|[Hx|Hx]%elem_of_app]%elem_of_app.
        -- assert (node_id x < next_id db) by (apply Hlt, elem_of_app; left; exact Hx).
           lia.
        -- assert (node_id x < next_id db) by (apply Hlt, elem_of_app; right; exact Hx).
           lia.
        -- apply list_elem_of_singleton in Hx as ->. cbn. lia.
      * intros ds Hds. destruct (Hjoin ds Hds) as [H1 H2].
        split; [exact H1 | apply elem_of_app; left; exact H2].
      * exact Hrel.
    + intros x. cbn. rewrite fmap_app, elem_of_app. cbn.
      rewrite list_elem_of_singleton. reflexivity.
  - split; [constructor; assumption|]. split; [reflexivity|]. split; [reflexivity|].
    intros x. split; [left; assumption|].
    intros [H| ->]; [exact H|].
    assert (Hx : x0 ∈ find_named n (symptom_nodes (contents db)))
      by (rewrite Hf; left).
    apply find_named_elem in Hx as [<- Hx]. apply list_elem_of_fmap_2. exact Hx.
Qed.

Lemma merge_relationship_spec db ds :
  consistent db ->
  ds.1 ∈ disease_nodes db ->
  ds.2 ∈ symptom_nodes (contents db) ->
  consistent (merge_relationship db ds) /\
  disease_nodes (merge_relationship db ds) = disease_nodes db /\
  symptom_nodes (contents (merge_relationship db ds))
    = symptom_nodes (contents db) /\
  (forall e, e ∈ has_symptom (contents (merge_relationship db ds)) <->
             e ∈ has_symptom (contents db) \/ e = ds).
Proof.
  intros Hc Hd Hs. pose proof Hc as [Hdn Hsn Hdi Hsi Hlt Hjoin Hrel].
  unfold merge_relationship.
  destruct (decide (related db ds.1 ds.2)) as [Hex|Hnew].
  - split; [exact Hc|]. split; [reflexivity|]. split; [reflexivity|].
    intros e. split; [left; assumption|]. intros [H| ->]; [exact H|].
    apply Exists_exists in Hex as (e & He & Hid1 & Hid2).
    destruct (Hjoin e He) as [He1 He2].
    assert (H1 : e.1 = ds.1)
      by (apply (NoDup_fmap_eq node_id (disease_nodes db)); assumption).
    assert (H2 : e.2 = ds.2)
      by (apply (NoDup_fmap_eq node_id (symptom_nodes (contents db)));
          assumption).
    destruct e, ds. cbn in *. subst. exact He.
  - split; [|split; [reflexivity|split; [reflexivity|]]].
    + constructor; cbn; try assumption.
      * intros e [He|He]%elem_of_app; [exact (Hjoin e He)|].
        apply list_elem_of_singleton in He as ->. split; assumption.
      * apply NoDup_snoc; [exact Hrel|].
        intros Hin. apply Hnew. apply Exists_exists.
        exists ds. split; [exact Hin | split; reflexivity].
    + intros e. cbn. rewrite elem_of_app, list_elem_of_singleton. reflexivity.
Qed.

Lemma merge_has_symptom_spec dn sn db :
  consistent db ->
  dn ∈ name <$> disease_nodes db ->
  sn ∈ name <$> symptom_nodes (contents db) ->
  consistent (merge_has_symptom dn sn db) /\
  disease_nodes (merge_has_symptom dn sn db) = disease_nodes db /\
  symptom_nodes (contents (merge_has_symptom dn sn db))
    = symptom_nodes (contents db) /\
  (forall a b, listed (contents (merge_has_symptom dn sn db)) a b <->
               listed (contents db) a b \/ (a = dn /\ b = sn)).
Proof.
  intros Hc (d & -> & Hd)%list_elem_of_fmap (s & -> & Hs)%list_elem_of_fmap.
  unfold merge_has_symptom.
  rewrite (find_named_unique _ d (disease_names_NoDup db Hc) Hd),
    (find_named_unique _ s (symptom_names_NoDup db Hc) Hs).
  cbn.
  destruct (merge_relationship_spec db (d, s) Hc Hd Hs)
    as (Hc' & Hdn & Hsn & Hedges).
  split; [exact Hc'|]. split; [exact Hdn|]. split; [exact Hsn|].
  intros a b. unfold listed. split.
  - intros (e & He & Ha & Hb). apply Hedges in He as [He| ->].
    + left. exists e. repeat split; assumption.
    + right. split; symmetry; assumption.
  - intros [(e & He & Ha & Hb)|[-> ->]].
    + exists e. split; [apply Hedges; left; exact He | split; assumption].
    + exists (d, s). split; [apply Hedges; right; reflexivity | split; reflexivity].
Qed.

Lemma listed_same_relationships g g' a b :
  has_symptom g' = has_symptom g -> listed g' a b <-> listed g a b.
Proof. unfold listed. intros ->. reflexivity. Qed.

Lemma populate_cells_spec dn row symptoms : forall db cs cr,
  consistent db ->
  dn ∈ name <$> disease_nodes db ->
  let db' := (populate_cells dn row symptoms db cs cr).1.1 in
  consistent db' /\
  disease_nodes db' = disease_nodes db /\
  (forall x, x ∈ name <$> symptom_nodes (contents db') <->
             x ∈ name <$> symptom_nodes (contents db) \/
             (x ∈ symptoms /\ row x = 1%Z)) /\
  (forall a b, listed (contents db') a b <->
               listed (contents db) a b \/
               (a = dn /\ b ∈ symptoms /\ row b = 1%Z)).
Proof.
  induction symptoms as [|c rest IH]; intros db cs cr Hc Hdn; cbn.
  - split; [exact Hc|]. split; [reflexivity|]. split.
    + intros x. rewrite elem_of_nil. tauto.
    + intros a b. rewrite elem_of_nil. tauto.
  - destruct (row c =? 1)%Z eqn:Hcell.
    + apply Z.eqb_eq in Hcell.
      destruct (merge_symptom_spec c db Hc) as (Hc1 & Hd1 & Hrel1 & Hs1).
      set (db1 := merge_symptom c db) in *.
      assert (Hdn1 : dn ∈ name <$> disease_nodes db1) by (rewrite Hd1; exact Hdn).
      assert (Hc1' : c ∈ name <$> symptom_nodes (contents db1))
        by (apply Hs1; right; reflexivity).
      destruct (merge_has_symptom_spec dn c db1 Hc1 Hdn1 Hc1')
        as (Hc2 & Hd2 & Hs2 & Hl2).
      set (db2 := merge_has_symptom dn c db1) in *.
      assert (Hdn2 : dn ∈ name <$> disease_nodes db2) by (rewrite Hd2; exact Hdn1).
      destruct (IH db2 (S cs) (S cr) Hc2 Hdn2) as (Hc3 & Hd3 & Hs3 & Hl3).
      split; [exact Hc3|]. split; [congruence|]. split.
      * intros x. rewrite Hs3, Hs2, Hs1, elem_of_cons.
        split; [|intros [H|[[->|H] Hx]]; auto].
        intros [[H| ->]|[H Hx]]; auto.
      * intros a b. rewrite Hl3, Hl2, (listed_same_relationships _ _ a b Hrel1),
          elem_of_cons.
        split; [|intros [H|(-> & [->|H] & Hx)]; auto].
        intros [[H|[-> ->]]|(-> & H & Hx)]; auto.
    + apply Z.eqb_neq in Hcell.
      destruct (IH db cs cr Hc Hdn) as (Hc3 & Hd3 & Hs3 & Hl3).
      split; [exact Hc3|]. split; [exact Hd3|]. split.
      * intros x. rewrite Hs3, elem_of_cons.
        split; [intros [H|[H Hx]]; auto|].
        intros [H|[[->|H] Hx]]; auto. contradiction.
      * intros a b. rewrite Hl3, elem_of_cons.
        split; [intros [H|(-> & H & Hx)]; auto|].
        intros [H|(-> & [->|H] & Hx)]; auto. contradiction.
Qed.

Lemma wanted_cons symptoms row todo a b :
  wanted symptoms (row :: todo) a b <->
  (PyStr.strip row.1 = a /\ b ∈ symptoms /\ row.2 b = 1%Z) \/
  wanted symptoms todo a b.
Proof.
  unfold wanted. split.
  - intros (r & [->|Hr]%elem_of_cons & H); [left; exact H|].
    right. exists r. split; assumption.
  - intros [H|(r & Hr & H)].
    + exists row. split; [left | exact H].
    + exists r. split; [right; exact Hr | exact H].
Qed.

Lemma populate_rows_spec symptoms total todo : forall idx db,
  consistent db ->
  exists out db',
    populate_rows symptoms total idx todo db = IO out (Ok db') /\
    consistent db' /\
    (forall x, x ∈ name <$> symptom_nodes (contents db') <->
               x ∈ name <$> symptom_nodes (contents db) \/
               exists a, wanted symptoms todo a x) /\
    (forall a b, listed (contents db') a b <->
                 listed (contents db) a b \/ wanted symptoms todo a b).
Proof.
  induction todo as [|row rest IH]; intros idx db Hc.
  - exists [], db. split; [reflexivity|]. split; [exact Hc|]. split.
    + intros x. split; [left; assumption|].
      intros [H|(a & r & Hr & _)]; [exact H|]. apply elem_of_nil in Hr. contradiction.
    + intros a b. split; [left; assumption|].
      intros [H|(r & Hr & _)]; [exact H|]. apply elem_of_nil in Hr. contradiction.
  - cbn [populate_rows].
    destruct (merge_disease_spec (PyStr.strip row.1) db Hc) as (Hc0 & Hcont0 & Hd0).
    set (db0 := merge_disease (PyStr.strip row.1) db) in *.
    assert (Hdn : PyStr.strip row.1 ∈ name <$> disease_nodes db0)
      by (apply Hd0; right; reflexivity).
    pose proof (populate_cells_spec (PyStr.strip row.1) row.2 symptoms db0 0 0
                  Hc0 Hdn) as Hcells.
    destruct (populate_cells (PyStr.strip row.1) row.2 symptoms db0 0 0)
      as [[db1 cs] cr].
    cbn in Hcells. destruct Hcells as (Hc1 & _ & Hs1 & Hl1).
    destruct (IH (S idx) db1 Hc1) as (out & db2 & Hrun & Hc2 & Hs2 & Hl2).
    eexists _, db2. split; [|split; [exact Hc2|split]].
    + unfold mbind, io_bind. cbn. rewrite Hrun. cbn. reflexivity.
    + intros x. rewrite Hs2, Hs1, Hcont0. split.
      * intros [[H|[H Hx]]|(a & Hw)]; [left; exact H | |].
        -- right. exists (PyStr.strip row.1). apply wanted_cons. left. auto.
        -- right. exists a. apply wanted_cons. right. exact Hw.
      * intros [H|(a & [(_ & H & Hx)|Hw]%wanted_cons)]; [auto | auto |].
        right. exists a. exact Hw.
    + intros a b. rewrite Hl2, Hl1, wanted_cons.
      rewrite (listed_same_relationships (contents db0) (contents db) a b)
        by (rewrite Hcont0; reflexivity).
      split.
      * intros [[H|(-> & H & Hx)]|Hw]; auto.
      * intros [H|[(<- & H & Hx)|Hw]]; auto.
Qed.

Lemma empty_database_consistent : consistent empty_database.
Proof.
  constructor; cbn; try apply NoDup_nil_2.
  - intros x Hx. apply elem_of_nil in Hx. contradiction.
  - intros e He. apply elem_of_nil in He. contradiction.
Qed.

(** The population of a store in reach ends, and leaves the contents of
    a consistent store that lists what the table asks for. *)
Lemma create_knowledge_graph_spec g0 df :
  exists out db,
    create_knowledge_graph (Online g0) df = IO out (Ok (Online (contents db))) /\
    consistent db /\
    (forall x, x ∈ name <$> symptom_nodes (contents db) <->
               exists a, wanted (columns df) (rows df) a x) /\
    (forall a b, listed (contents db) a b <->
                 wanted (columns df) (rows df) a b).
Proof.
  destruct (populate_rows_spec (columns df) (length (rows df)) (rows df) 0
              empty_database empty_database_consistent)
    as (out & db & Hrun & Hc & Hs & Hl).
  eexists _, db. split; [|split; [exact Hc|split]].
  - unfold create_knowledge_graph, mbind, io_bind. cbn. rewrite Hrun. cbn.
    reflexivity.
  - intros x. rewrite Hs. cbn. rewrite elem_of_nil. tauto.
  - intros a b. rewrite Hl. unfold listed. cbn. split; [|auto].
    intros [(e & He & _)|H]; [|exact H]. apply elem_of_nil in He. contradiction.
Qed.

(** The population of a store in reach ends with a graph in which a
    disease has a relationship to a symptom exactly when a row of the
    table, its first cell trimmed, names the disease and has 1 in the
    column of the symptom. *)
Theorem populated_graph_lists_the_table g0 df :
  exists out g,
    create_knowledge_graph (Online g0) df = IO out (Ok (Online g)) /\
    forall a b, listed g a b <-> wanted (columns df) (rows df) a b.
Proof.
  destruct (create_knowledge_graph_spec g0 df) as (out & db & Hrun & _ & _ & Hl).
  exists out, (contents db). split; [exact Hrun | exact Hl].
Qed.

(** After the population, [get_all_symptoms_from_neo4j] returns, in
    ascending order and each once, the labels of the columns in which
    some row has 1. *)
Theorem populated_vocabulary g0 df :
  exists out g names,
    create_knowledge_graph (Online g0) df = IO out (Ok (Online g)) /\
    get_all_symptoms_from_neo4j (Online g) = IO [] (Ok names) /\
    NoDup names /\
    StronglySorted Cypher.name_asc names /\
    forall x, x ∈ names <-> exists a, wanted (columns df) (rows df) a x.
Proof.
  destruct (create_knowledge_graph_spec g0 df) as (out & db & Hrun & Hc & Hs & _).
  exists out, (contents db), (Cypher.symptom_query (contents db)).
  split; [exact Hrun|]. split; [reflexivity|].
  unfold Cypher.symptom_query. split; [|split].
  - rewrite merge_sort_Permutation. apply (symptom_names_NoDup db Hc).
  - apply StronglySorted_merge_sort; apply _.
  - intros x. rewrite merge_sort_Permutation. apply Hs.
Qed.

(** On a graph left by the population, no answer of
    [get_diseases_from_neo4j] names a disease twice. *)
Theorem populated_graph_names_each_disease_once g0 df :
  exists out g,
    create_knowledge_graph (Online g0) df = IO out (Ok (Online g)) /\
    forall user_symptoms top_n,
      exists out' records,
        get_diseases_from_neo4j (Online g) user_symptoms top_n
          = IO out' (Ok records) /\
        NoDup (disease <$> records).
Proof.
  destruct (create_knowledge_graph_spec g0 df) as (out & db & Hrun & Hc & _ & _).
  exists out, (contents db). split; [exact Hrun|].
  intros user_symptoms top_n. apply diseases_NoDup.
  intros d1 d2 (e1 & -> & H1)%list_elem_of_fmap (e2 & -> & H2)%list_elem_of_fmap Hn.
  apply (relationships_join_nodes db Hc) in H1 as [H1 _].
  apply (relationships_join_nodes db Hc) in H2 as [H2 _].
  f_equal.
  exact (NoDup_fmap_eq name (disease_nodes db) _ _
           (disease_names_NoDup db Hc) H1 H2 Hn).
Qed.

(** When no two columns of the table have the same label but for case,
    the population leaves a graph in which a disease lists a symptom at
    most once, symptom names being compared in lower case. *)
Theorem populated_graph_well_formed g0 df :
  (forall c1 c2, c1 ∈ columns df -> c2 ∈ columns df ->
     PyStr.lower c1 = PyStr.lower c2 -> c1 = c2) ->
  exists out g,
    create_knowledge_graph (Online g0) df = IO out (Ok (Online g)) /\
    well_formed g.
Proof.
  intros Hcols.
  destruct (create_knowledge_graph_spec g0 df) as (out & db & Hrun & Hc & Hs & _).
  exists out, (contents db). split; [exact Hrun|].
  unfold well_formed. apply NoDup_fmap_2_strong; [|apply (relationships_NoDup db Hc)].
  intros [d1 s1] [d2 s2] H1 H2 Hkey. unfold edge_key in Hkey. cbn in Hkey.
  injection Hkey as Hid Hlow.
  destruct (relationships_join_nodes db Hc _ H1) as [Hd1 Hs1].
  destruct (relationships_join_nodes db Hc _ H2) as [Hd2 Hs2].
  cbn in Hd1, Hs1, Hd2, Hs2.
  assert (Hd : d1 = d2)
    by exact (NoDup_fmap_eq node_id (disease_nodes db) _ _
                (disease_ids_NoDup db Hc) Hd1 Hd2 Hid).
  assert (Hcol : forall s, s ∈ symptom_nodes (contents db) -> name s ∈ columns df).
  { intros s Hin.
    destruct (proj1 (Hs (name s)) (list_elem_of_fmap_2 name _ _ Hin))
      as (a & r & _ & _ & Hcol & _).
    exact Hcol. }
  assert (Hname : name s1 = name s2)
    by (apply Hcols; [apply Hcol; exact Hs1 | apply Hcol; exact Hs2 | exact Hlow]).
  assert (Hsym : s1 = s2)
    by exact (NoDup_fmap_eq name (symptom_nodes (contents db)) _ _
                (symptom_names_NoDup db Hc) Hs1 Hs2 Hname).
  congruence.
Qed.

Lemma populated_graph_well_formed_witness :
  exists out g,
    create_knowledge_graph (Online Toy.clinic) Toy.table = IO out (Ok (Online g)) /\
    well_formed g.
Proof.
  apply (populated_graph_well_formed Toy.clinic Toy.table).
  cbn. intros c1 c2 H1 H2.
  repeat (apply elem_of_cons in H1 as [->|H1]);
    try (apply elem_of_nil in H1; contradiction);
    repeat (apply elem_of_cons in H2 as [->|H2]);
    try (apply elem_of_nil in H2; contradiction);
    vm_compute; congruence.
Defined.

(** The table of the examples, populated and queried. *)
Example populated_table :
  exists out,
    create_knowledge_graph (Offline "unreachable") Toy.table
      = IO [Print "[1/3] Deleting all previous nodes and relationships from the database..."]
           (Raise (Neo4jError "unreachable")) /\
    create_knowledge_graph (Online Toy.clinic) Toy.table
      = IO out (Ok (Online (Graph [Node 1 "fever"; Node 2 "cough"]
                              [ (Node 0 "Flu", Node 1 "fever");
                                (Node 0 "Flu", Node 2 "cough");
                                (Node 3 "Cold", Node 2 "cough") ]))).
Proof. eexists. split; vm_compute; reflexivity. Qed.
